(** * nqrduck-measurement: the measurement module's functions and controller

    A shallow embedding of [signalprocessing_options.py] (the apodization
    window functions and the dialogs that offer them), of the controller
    methods of [controller.py] that touch the model and the file system, and
    of the series selection of [view.py].

    Symbolic expressions are syntax trees with a parser for the strings the
    module hands to [sympy.sympify]; their value is taken in the real numbers.
    The controller is written in a small state-and-exception monad over a
    world made of the model, the files and the signals emitted so far. *)

From Stdlib Require Import ZArith String Ascii List Reals Lra Lia.
From stdpp Require Import base option gmap strings list pretty.

Open Scope string_scope.
Open Scope Z_scope.

(** ** Symbolic expressions, as [sympy.sympify] reads them from a string *)

Module Sympy.

(** The syntax tree of an expression, before any simplification. *)
Inductive expr : Type :=
| Symbol (s : string)
| Integer (n : Z)
| Neg (a : expr)
| Add (a b : expr)
| Sub (a b : expr)
| Mul (a b : expr)
| Div (a b : expr)
| Pow (a b : expr)
| Exp (a : expr).

Inductive token : Type :=
| TNum (n : Z)
| TName (s : string)
| TPlus | TMinus | TStar | TSlash | TPow | TOpen | TClose.

Definition code (c : ascii) : Z := Z.of_nat (nat_of_ascii c).

Definition is_digit (c : ascii) : bool :=
  (48 <=? code c) && (code c <=? 57).

Definition is_alpha (c : ascii) : bool :=
  ((65 <=? code c) && (code c <=? 90))
  || ((97 <=? code c) && (code c <=? 122))
  || (code c =? 95).

Definition is_space (c : ascii) : bool :=
  (code c =? 32) || (code c =? 9).

(** What the tokenizer has read of a number or of a name that is not
    finished yet. *)
Inductive pending : Type :=
| PNone
| PNum (n : Z)
| PName (s : string).

Definition flush (p : pending) : list token :=
  match p with
  | PNone => []
  | PNum n => [TNum n]
  | PName s => [TName s]
  end.

Definition emit_tokens (p : pending) (t : token) (rest : option (list token))
  : option (list token) :=
  ts ← rest; Some (flush p ++ t :: ts)%list.

(** Python's tokenizer on the fragment the module's expressions use: integer
    literals, names, the operators [+ - * / **], parentheses, and [^], which
    sympify's [convert_xor] turns into [**]. A digit run followed by a letter
    is no token, and the fragment has no decimal point: the module's own
    expressions hold integer literals only. *)
Fixpoint tokenize (p : pending) (s : string) : option (list token) :=
  match s with
  | EmptyString => Some (flush p)
  | String c s' =>
      if is_digit c then
        match p with
        | PNone => tokenize (PNum (code c - 48)) s'
        | PNum n => tokenize (PNum (10 * n + (code c - 48))) s'
        | PName x => tokenize (PName (x +:+ String c EmptyString)) s'
        end
      else if is_alpha c then
        match p with
        | PNone => tokenize (PName (String c EmptyString)) s'
        | PNum _ => None
        | PName x => tokenize (PName (x +:+ String c EmptyString)) s'
        end
      else if is_space c then
        ts ← tokenize PNone s'; Some (flush p ++ ts)%list
      else if (code c =? 43) then emit_tokens p TPlus (tokenize PNone s')
      else if (code c =? 45) then emit_tokens p TMinus (tokenize PNone s')
      else if (code c =? 47) then emit_tokens p TSlash (tokenize PNone s')
      else if (code c =? 94) then emit_tokens p TPow (tokenize PNone s')
      else if (code c =? 40) then emit_tokens p TOpen (tokenize PNone s')
      else if (code c =? 41) then emit_tokens p TClose (tokenize PNone s')
      else if (code c =? 42) then
        match s' with
        | String c' s'' =>
            if (code c' =? 42) then emit_tokens p TPow (tokenize PNone s'')
            else emit_tokens p TStar (tokenize PNone s')
        | EmptyString => emit_tokens p TStar (tokenize PNone s')
        end
      else None
  end.

(** Python's expression grammar on these tokens, by recursive descent:
    sums of terms, terms of factors, a unary sign binding tighter than [*]
    and [/] and looser than [**], and [**] associating to the right. [exp]
    is the one function name of the fragment. The fuel bounds the depth of
    the descent. *)
Fixpoint parse_expr (fuel : nat) (ts : list token) : option (expr * list token) :=
  match fuel with
  | O => None
  | S fuel => '(a, ts) ← parse_term fuel ts; parse_expr_tail fuel a ts
  end
with parse_expr_tail (fuel : nat) (a : expr) (ts : list token)
  : option (expr * list token) :=
  match fuel with
  | O => None
  | S fuel =>
      match ts with
      | TPlus :: ts => '(b, ts) ← parse_term fuel ts; parse_expr_tail fuel (Add a b) ts
      | TMinus :: ts => '(b, ts) ← parse_term fuel ts; parse_expr_tail fuel (Sub a b) ts
      | _ => Some (a, ts)
      end
  end
with parse_term (fuel : nat) (ts : list token) : option (expr * list token) :=
  match fuel with
  | O => None
  | S fuel => '(a, ts) ← parse_factor fuel ts; parse_term_tail fuel a ts
  end
with parse_term_tail (fuel : nat) (a : expr) (ts : list token)
  : option (expr * list token) :=
  match fuel with
  | O => None
  | S fuel =>
      match ts with
      | TStar :: ts => '(b, ts) ← parse_factor fuel ts; parse_term_tail fuel (Mul a b) ts
      | TSlash :: ts => '(b, ts) ← parse_factor fuel ts; parse_term_tail fuel (Div a b) ts
      | _ => Some (a, ts)
      end
  end
with parse_factor (fuel : nat) (ts : list token) : option (expr * list token) :=
  match fuel with
  | O => None
  | S fuel =>
      match ts with
      | TMinus :: ts => '(a, ts) ← parse_factor fuel ts; Some (Neg a, ts)
      | TPlus :: ts => parse_factor fuel ts
      | _ => parse_power fuel ts
      end
  end
with parse_power (fuel : nat) (ts : list token) : option (expr * list token) :=
  match fuel with
  | O => None
  | S fuel =>
      '(a, ts) ← parse_atom fuel ts;
      match ts with
      | TPow :: ts => '(b, ts) ← parse_factor fuel ts; Some (Pow a b, ts)
      | _ => Some (a, ts)
      end
  end
with parse_atom (fuel : nat) (ts : list token) : option (expr * list token) :=
  match fuel with
  | O => None
  | S fuel =>
      match ts with
      | TNum n :: ts => Some (Integer n, ts)
      | TName f :: TOpen :: ts =>
          if String.eqb f "exp" then
            '(a, ts) ← parse_expr fuel ts;
            match ts with
            | TClose :: ts => Some (Exp a, ts)
            | _ => None
            end
          else None
      | TName x :: ts => Some (Symbol x, ts)
      | TOpen :: ts =>
          '(a, ts) ← parse_expr fuel ts;
          match ts with
          | TClose :: ts => Some (a, ts)
          | _ => None
          end
      | _ => None
      end
  end.

(** [sympy.sympify(s)] on a string, with seven levels of descent for each
    token: [None] stands for [SympifyError]. *)
Definition sympify (s : string) : option expr :=
  ts ← tokenize PNone s;
  '(e, rest) ← parse_expr (7 * (length ts + 1))%nat ts;
  match rest with
  | [] => Some e
  | _ :: _ => None
  end.


(** [expr.subs(d)] for a dictionary from symbol names to integers. *)
Fixpoint subs (d : gmap string Z) (e : expr) : expr :=
  match e with
  | Symbol s => match d !! s with Some v => Integer v | None => Symbol s end
  | Integer n => Integer n
  | Neg a => Neg (subs d a)
  | Exp a => Exp (subs d a)
  | Add a b => Add (subs d a) (subs d b)
  | Sub a b => Sub (subs d a) (subs d b)
  | Mul a b => Mul (subs d a) (subs d b)
  | Div a b => Div (subs d a) (subs d b)
  | Pow a b => Pow (subs d a) (subs d b)
  end.

(** The real number an expression denotes under a valuation of its symbols.
    A power with a literal integer exponent is the iterated product, any
    other power is [exp (b * ln a)]. *)
Fixpoint eval (env : string → R) (e : expr) : R :=
  match e with
  | Symbol s => env s
  | Integer n => IZR n
  | Neg a => (- eval env a)%R
  | Add a b => (eval env a + eval env b)%R
  | Sub a b => (eval env a - eval env b)%R
  | Mul a b => (eval env a * eval env b)%R
  | Div a b => (eval env a / eval env b)%R
  | Pow a (Integer n) => powerRZ (eval env a) n
  | Pow a b => Rpower (eval env a) (eval env b)
  | Exp a => exp (eval env a)
  end.

End Sympy.

(** ** Functions of one variable with named parameters *)

(** Modelled from the spec: [Function.Parameter] of the host package
    (nqrduck.helpers.functions), which is not among the sources. A parameter
    is built from a display name, a symbol and a value, and keeps the value
    it was built with as its default. The values the module gives are
    integers. *)
Record FunctionParameter : Type := {
  p_name : string;
  symbol : string;
  value : Z;
  default : Z;
}.

Definition Parameter_init (name symbol : string) (v : Z) : FunctionParameter :=
  {| p_name := name; symbol := symbol; value := v; default := v |}.

(** Modelled from the spec: the [Function] base class of the host package,
    which is not among the sources: "a symbolic expression over one free
    variable plus named numeric parameters, evaluable over an interval". *)
Record Function : Type := {
  name : string;
  expr : Sympy.expr;
  parameters : list FunctionParameter;
  start_x : Z;
  end_x : Z;
}.

Definition set_start_x (v : Z) (f : Function) : Function :=
  {| name := name f; expr := expr f; parameters := parameters f;
     start_x := v; end_x := end_x f |}.

Definition set_end_x (v : Z) (f : Function) : Function :=
  {| name := name f; expr := expr f; parameters := parameters f;
     start_x := start_x f; end_x := v |}.

(** [self.parameters.append(parameter)]. *)
Definition add_parameter (p : FunctionParameter) (f : Function) : Function :=
  {| name := name f; expr := expr f; parameters := (parameters f ++ [p])%list;
     start_x := start_x f; end_x := end_x f |}.

(** The dictionary from each parameter's symbol to its value; a later
    parameter overrides an earlier one of the same symbol. *)
Definition parameter_values (f : Function) : gmap string Z :=
  foldl (fun d p => <[symbol p := value p]> d) ∅ (parameters f).


(** The expression once every parameter is replaced by its value. *)
Definition final_expr (f : Function) : Sympy.expr :=
  Sympy.subs (parameter_values f) (expr f).

(** The valuation that gives [x] its value; any other symbol is read as
    zero. *)
Definition at_x (x : R) (s : string) : R :=
  if String.eqb s "x" then x else 0%R.

Definition evaluate_at (f : Function) (x : R) : R :=
  Sympy.eval (at_x x) (final_expr f).

(** ** The world the controller acts on *)

(** The exceptions the controller's code can meet. *)
Inductive exn : Type :=
| FileNotFoundError
| JSONDecodeError
| KeyError
| UnboundLocalError
| OtherError (what : string).

(** What [nqrduck_signal.emit(key, value)] carries as its value. *)
Inductive signal_value : Type :=
| NoValue
| Text (s : string)
| Texts (l : list string).

Section Measurement_module.

(** The types and operations of the packages the module is a plugin of
    (nqrduck_spectrometer's [Measurement] with its JSON form, [json], the
    form builder's dialogs) are not among the sources; they are left open.
    A function that can raise returns the exception on the left.
    [json_dump] writes as it goes: when it raises, the text written so far
    comes with the exception. [open_error] is what opening a path for
    writing raises on the files as they are, if anything. *)
Context {Measurement JSON Fit Frequency Axis Samples : Type}.
Variable to_json : Measurement → exn + JSON.
Variable from_json : JSON → exn + Measurement.
Variable json_dump : JSON → exn * string + string.
Variable open_error : gmap string string → string → option exn.
Variable json_load : string → exn + JSON.
Variable T2StarFit : Measurement → Fit.
Variables tdx fdx : Measurement → Axis.
Variables tdy fdy : Measurement → Samples.
Variables GaussianFunction CustomFunction : Function.
Variables base_start_x base_end_x : Z.

(** *** The functions the module defines *)

(** [Function.__init__(expr)], run for an instance of the class whose
    [name] attribute is [cls_name]: no parameter yet, and an interval of the
    base class's own, which every class below overwrites; its bounds
    [base_start_x] and [base_end_x] are left open. *)
Definition Function_init (cls_name : string) (e : Sympy.expr) : Function :=
  {| name := cls_name; expr := e; parameters := [];
     start_x := base_start_x; end_x := base_end_x |}.

(** class FIDFunction: the exponential FID function. *)
Definition FIDFunction : option Function :=
  e ← Sympy.sympify "exp( -x / T2star )";
  let self := Function_init "FID" e in
  let self := set_start_x 0 self in
  let self := set_end_x 30 self in
  Some (add_parameter (Parameter_init "T2star (microseconds)" "T2star" 10) self).

(** class LorentzianFunction. *)
Definition LorentzianFunction : option Function :=
  e ← Sympy.sympify "1 / (1 + (x / T2star)^2)";
  let self := Function_init "Lorentzian" e in
  let self := set_start_x 0 self in
  let self := set_end_x 30 self in
  Some (add_parameter (Parameter_init "T2star (microseconds)" "T2star" 10) self).


(** What [FIDFunction()] and [LorentzianFunction()] come to, whatever the
    base class's interval ([FIDFunction_built], [LorentzianFunction_built]). *)
Definition fid : Function :=
  {| name := "FID";
     expr := Sympy.Exp (Sympy.Div (Sympy.Neg (Sympy.Symbol "x")) (Sympy.Symbol "T2star"));
     parameters := [ {| p_name := "T2star (microseconds)"; symbol := "T2star";
                        value := 10; default := 10 |} ];
     start_x := 0; end_x := 30 |}.

Definition lorentzian : Function :=
  {| name := "Lorentzian";
     expr := Sympy.Div (Sympy.Integer 1)
               (Sympy.Add (Sympy.Integer 1)
                  (Sympy.Pow (Sympy.Div (Sympy.Symbol "x") (Sympy.Symbol "T2star"))
                     (Sympy.Integer 2)));
     parameters := [ {| p_name := "T2star (microseconds)"; symbol := "T2star";
                        value := 10; default := 10 |} ];
     start_x := 0; end_x := 30 |}.

(** The model's two view modes, constants of the model. *)
Variables FFT_VIEW TIME_VIEW : string.

(** Modelled from the spec: the module's model (model.py is not among the
    sources), with the attributes the controller and the view read and
    write: the view mode, the list of measurements in the order they were
    added, the displayed measurement ([None] before the first one), and the
    measurement settings with their validity flags. *)
Record Model : Type := {
  view_mode : string;
  measurements : list Measurement;
  displayed_measurement : option Measurement;
  frequency_valid : bool;
  averages_valid : bool;
  measurement_frequency : Frequency;
  averages : Z;
}.

Definition with_view_mode (v : string) (M : Model) : Model :=
  {| view_mode := v; measurements := measurements M;
     displayed_measurement := displayed_measurement M;
     frequency_valid := frequency_valid M; averages_valid := averages_valid M;
     measurement_frequency := measurement_frequency M; averages := averages M |}.

Definition with_measurements (l : list Measurement) (M : Model) : Model :=
  {| view_mode := view_mode M; measurements := l;
     displayed_measurement := displayed_measurement M;
     frequency_valid := frequency_valid M; averages_valid := averages_valid M;
     measurement_frequency := measurement_frequency M; averages := averages M |}.

Definition with_displayed_measurement (d : option Measurement) (M : Model) : Model :=
  {| view_mode := view_mode M; measurements := measurements M;
     displayed_measurement := d;
     frequency_valid := frequency_valid M; averages_valid := averages_valid M;
     measurement_frequency := measurement_frequency M; averages := averages M |}.

(** The model, the files by their path, and the signals the controller has
    sent to the host so far, oldest first. *)
Record World : Type := {
  model : Model;
  files : gmap string string;
  emitted : list (string * signal_value);
}.

Definition with_model (M : Model) (w : World) : World :=
  {| model := M; files := files w; emitted := emitted w |}.

Definition with_files (fs : gmap string string) (w : World) : World :=
  {| model := model w; files := fs; emitted := emitted w |}.

Definition with_emitted (l : list (string * signal_value)) (w : World) : World :=
  {| model := model w; files := files w; emitted := l |}.

(** *** State and exceptions *)

(** A method runs from a world to a new world and either an exception that
    leaves it or a value. *)
Definition Eff (A : Type) : Type := World → World * (exn + A).

Definition ret {A} (a : A) : Eff A := fun w => (w, inr a).

Definition raise {A} (e : exn) : Eff A := fun w => (w, inl e).

Definition bind {A B} (m : Eff A) (k : A → Eff B) : Eff B :=
  fun w =>
    match m w with
    | (w', inl e) => (w', inl e)
    | (w', inr a) => k a w'
    end.

(** try: [m] except [e]: [handler e]. *)
Definition try_except {A} (m : Eff A) (handler : exn → Eff A) : Eff A :=
  fun w =>
    match m w with
    | (w', inl e) => handler e w'
    | (w', inr a) => (w', inr a)
    end.

Definition lift {A} (r : exn + A) : Eff A :=
  match r with
  | inl e => raise e
  | inr a => ret a
  end.

Definition exec {A} (m : Eff A) (w : World) : World := fst (m w).

Definition outcome {A} (m : Eff A) (w : World) : exn + A := snd (m w).

Notation "'let*' x ':=' m 'in' k" := (bind m (fun x => k))
  (at level 10, x name, m at level 100, k at level 200).

Definition get_model : Eff Model := fun w => (w, inr (model w)).

Definition update_model (f : Model → Model) : Eff unit :=
  fun w => (with_model (f (model w)) w, inr tt).

(** [self.module.nqrduck_signal.emit(key, value)]. *)
Definition emit (key : string) (v : signal_value) : Eff unit :=
  fun w => (with_emitted (emitted w ++ [(key, v)])%list w, inr tt).

(** [open(file_name)] and reading all of it. *)
Definition open_read (file_name : string) : Eff string :=
  fun w =>
    match files w !! file_name with
    | Some s => (w, inr s)
    | None => (w, inl FileNotFoundError)
    end.

(** [open(file_name, "w")]: the call raises, or the file is there and
    empty. *)
Definition open_write (file_name : string) : Eff unit :=
  fun w =>
    match open_error (files w) file_name with
    | Some e => (w, inl e)
    | None => (with_files (<[file_name := EmptyString]> (files w)) w, inr tt)
    end.

(** [json.dump(measurement, f)] into the file opened at [file_name]: the
    whole text, or the text written before the exception. *)
Definition json_dump_into (file_name : string) (measurement : JSON) : Eff unit :=
  fun w =>
    match json_dump measurement with
    | inr text => (with_files (<[file_name := text]> (files w)) w, inr tt)
    | inl (e, partial) =>
        (with_files (<[file_name := partial]> (files w)) w, inl e)
    end.

(** Modelled from the spec: the model's [add_measurement] (model.py is not
    among the sources): the measurement is added at the end of the list.
    The Qt signals the model sends to the view change no state and are left
    out, here and in the two setters below. *)
Definition add_measurement (m : Measurement) : Eff unit :=
  update_model (fun M => with_measurements (measurements M ++ [m])%list M).

Definition set_displayed_measurement (d : option Measurement) : Eff unit :=
  update_model (with_displayed_measurement d).

Definition set_view_mode (v : string) : Eff unit :=
  update_model (with_view_mode v).

(** *** The dialogs of signalprocessing_options.py *)

(** class Apodization: the dialog holds the measurement and offers the
    functions of its selection field, the one at [default_function] first.
    The duration it passes to the field is a floating-point number and is
    left out. *)
Record Apodization : Type := {
  dialog_measurement : Measurement;
  functions : list Function;
  default_function : nat;
}.

Definition Apodization_init (measurement : Measurement) : option Apodization :=
  f ← FIDFunction;
  Some {| dialog_measurement := measurement;
          functions := [f; GaussianFunction; CustomFunction];
          default_function := 0%nat |}.

(** What [dialog.exec()] and [dialog.get_function()] give back: the dialog
    was rejected, or accepted with the function the user chose and
    parametrized. *)
Inductive dialog_result : Type :=
| Rejected
| Accepted (selection : Function).

(** class Fitting: the dialog offers the fits by name. *)
Record Fitting : Type := {
  fitting_measurement : Measurement;
  fits : list (string * Fit);
  default_option : nat;
}.

Definition Fitting_init (measurement : Measurement) : Fitting :=
  {| fitting_measurement := measurement;
     fits := [("T2*", T2StarFit measurement)];
     default_option := 0%nat |}.

(** [get_fit]: the fit object of the selected entry. *)
Definition get_fit (dialog : Fitting) (selected : nat) : option Fit :=
  snd <$> fits dialog !! selected.

(** *** The controller's methods *)

(** [change_view_mode]. *)
Definition change_view_mode : Eff unit :=
  let* M := get_model in
  if String.eqb (view_mode M) FFT_VIEW
  then set_view_mode TIME_VIEW
  else set_view_mode FFT_VIEW.

(** [save_measurement(file_name)]: nothing happens on an empty list;
    otherwise [measurements[-1].to_json()] is taken first, then the file is
    opened for writing and the JSON value dumped into it. No exception is
    caught. *)
Definition save_measurement (file_name : string) : Eff unit :=
  let* M := get_model in
  match measurements M with
  | [] => ret tt
  | m0 :: ms =>
      let* measurement := lift (to_json (List.last ms m0)) in
      let* _ := open_write file_name in
      json_dump_into file_name measurement
  end.

Definition error_notification (message : string) : Eff unit :=
  emit "notification" (Texts ["Error"; message]).

(** [load_measurement(file_name)]: the whole of opening, decoding, building
    the measurement, adding and displaying it stands under one [try]. *)
Definition load_measurement (file_name : string) : Eff unit :=
  try_except
    (let* s := open_read file_name in
     let* j := lift (json_load s) in
     let* measurement := lift (from_json j) in
     let* _ := add_measurement measurement in
     set_displayed_measurement (Some measurement))
    (fun e =>
       match e with
       | FileNotFoundError => error_notification "File not found."
       | JSONDecodeError | KeyError =>
           error_notification "File is not a valid measurement file."
       | _ => raise e
       end).

(** [dialog.apodization(function)]: the class above defines no such method,
    so the call is answered by the form builder of the host package, which
    is not among the sources; what it raises or returns is left open. *)
Variable dialog_apodization : Apodization → Function → exn + Measurement.

(** [show_apodization_dialog], with the user's answer to the dialog as an
    argument. When the dialog is rejected, [function] was never assigned and
    reading it raises. *)
Definition show_apodization_dialog (user : Apodization → dialog_result) : Eff unit :=
  let* M := get_model in
  match displayed_measurement M with
  | None => error_notification "No measurement to apodize."
  | Some measurement =>
      match Apodization_init measurement with
      | None => raise (OtherError "SympifyError")
      | Some dialog =>
          match user dialog with
          | Rejected => raise UnboundLocalError
          | Accepted function =>
              let* apodized_measurement := lift (dialog_apodization dialog function) in
              let* _ := set_displayed_measurement (Some apodized_measurement) in
              add_measurement apodized_measurement
          end
      end
  end.

(** *** The view *)

(** What [update_displayed_measurement] puts on the plotter: the texts of
    the chosen view and, when a measurement is displayed, its stored
    frequency-domain or time-domain series. *)
Record Plot : Type := {
  fft_button_text : string;
  title : string;
  series : option (Axis * Samples);
}.

Definition update_displayed_measurement (M : Model) : Plot :=
  if String.eqb (view_mode M) FFT_VIEW then
    {| fft_button_text := "iFFT";
       title := "Measurement data - Frequency domain";
       series := (fun m => (fdx m, fdy m)) <$> displayed_measurement M |}
  else
    {| fft_button_text := "FFT";
       title := "Measurement data - Time domain";
       series := (fun m => (tdx m, tdy m)) <$> displayed_measurement M |}.

(** *** The measurement settings and the widgets of the view *)

(** [float(value)], [... * 1e6] and [str(...)] on the floating-point
    frequency, and [int(value)]: conversions of the language, left open.
    [str] of an integer is its decimal form, [pretty]. *)
Variable float_of_string : string → exn + Frequency.
Variable times_1e6 : Frequency → Frequency.
Variable str_of_frequency : Frequency → string.
Variable int_of_string : string → exn + Z.

Definition with_frequency_valid (b : bool) (M : Model) : Model :=
  {| view_mode := view_mode M; measurements := measurements M;
     displayed_measurement := displayed_measurement M;
     frequency_valid := b; averages_valid := averages_valid M;
     measurement_frequency := measurement_frequency M; averages := averages M |}.

Definition with_averages_valid (b : bool) (M : Model) : Model :=
  {| view_mode := view_mode M; measurements := measurements M;
     displayed_measurement := displayed_measurement M;
     frequency_valid := frequency_valid M; averages_valid := b;
     measurement_frequency := measurement_frequency M; averages := averages M |}.

Definition with_measurement_frequency (f : Frequency) (M : Model) : Model :=
  {| view_mode := view_mode M; measurements := measurements M;
     displayed_measurement := displayed_measurement M;
     frequency_valid := frequency_valid M; averages_valid := averages_valid M;
     measurement_frequency := f; averages := averages M |}.

Definition with_averages (n : Z) (M : Model) : Model :=
  {| view_mode := view_mode M; measurements := measurements M;
     displayed_measurement := displayed_measurement M;
     frequency_valid := frequency_valid M; averages_valid := averages_valid M;
     measurement_frequency := measurement_frequency M; averages := n |}.

(** class MeasurementDialog, the dialog that blocks the window while a
    measurement runs. *)
Record MeasurementDialog : Type := {
  finished : bool;
  dialog_visible : bool;
  spinner_running : bool;
}.

(** [__init__]: [finished] is set, the spinner movie is started, and the
    dialog is not shown yet. *)
Definition MeasurementDialog_init : MeasurementDialog :=
  {| finished := true; dialog_visible := false; spinner_running := true |}.

Definition on_movie_finished (d : MeasurementDialog) : MeasurementDialog :=
  {| finished := true; dialog_visible := dialog_visible d;
     spinner_running := spinner_running d |}.

(** [show()], inherited from the toolkit's dialog. *)
Definition show (d : MeasurementDialog) : MeasurementDialog :=
  {| finished := finished d; dialog_visible := true;
     spinner_running := spinner_running d |}.

(** [hide()]: the loop [while not self.finished: continue] changes nothing,
    so it is left at once when [finished] is set and never otherwise;
    [None] stands for a call that does not return. After the loop the
    spinner is stopped and the dialog hidden. *)
Definition hide (d : MeasurementDialog) : option MeasurementDialog :=
  if finished d
  then Some {| finished := finished d; dialog_visible := false;
               spinner_running := false |}
  else None.

(** The widgets of the view the controller reads and writes: the
    measurement dialog, whether the start button is enabled, and the text
    and style sheet of the frequency and averages fields and of the
    spectrometer label. *)
Record View : Type := {
  measurement_dialog : MeasurementDialog;
  start_enabled : bool;
  frequency_text : string;
  frequency_style : string;
  averages_text : string;
  averages_style : string;
  spectrometer_label : string;
}.

Definition with_measurement_dialog (d : MeasurementDialog) (v : View) : View :=
  {| measurement_dialog := d; start_enabled := start_enabled v;
     frequency_text := frequency_text v; frequency_style := frequency_style v;
     averages_text := averages_text v; averages_style := averages_style v;
     spectrometer_label := spectrometer_label v |}.

Definition with_start_enabled (b : bool) (v : View) : View :=
  {| measurement_dialog := measurement_dialog v; start_enabled := b;
     frequency_text := frequency_text v; frequency_style := frequency_style v;
     averages_text := averages_text v; averages_style := averages_style v;
     spectrometer_label := spectrometer_label v |}.

Definition with_spectrometer_label (s : string) (v : View) : View :=
  {| measurement_dialog := measurement_dialog v; start_enabled := start_enabled v;
     frequency_text := frequency_text v; frequency_style := frequency_style v;
     averages_text := averages_text v; averages_style := averages_style v;
     spectrometer_label := s |}.

(** [on_set_frequency_failure], the slot of [set_frequency_failure]. *)
Definition on_set_frequency_failure (v : View) : View :=
  {| measurement_dialog := measurement_dialog v; start_enabled := start_enabled v;
     frequency_text := frequency_text v;
     frequency_style := "border: 1px solid red;";
     averages_text := averages_text v; averages_style := averages_style v;
     spectrometer_label := spectrometer_label v |}.

(** [on_set_averages_failure], the slot of [set_averages_failure]. *)
Definition on_set_averages_failure (v : View) : View :=
  {| measurement_dialog := measurement_dialog v; start_enabled := start_enabled v;
     frequency_text := frequency_text v; frequency_style := frequency_style v;
     averages_text := averages_text v;
     averages_style := "border: 1px solid red;";
     spectrometer_label := spectrometer_label v |}.

(** *** The controller's methods that act on the view *)

(** [toggle_start_button]. *)
Definition toggle_start_button (v : View) : Eff View :=
  let* M := get_model in
  ret (with_start_enabled (frequency_valid M && averages_valid M) v).

(** [set_frequency(state, value)]. *)
Definition set_frequency (state : bool) (value : string) (v : View) : Eff View :=
  let* _ :=
    (if state then
       let* _ := update_model (with_frequency_valid true) in
       let* f := lift (float_of_string value) in
       let* _ := update_model (with_measurement_frequency (times_1e6 f)) in
       let* M := get_model in
       emit "set_frequency" (Text (str_of_frequency (measurement_frequency M)))
     else update_model (with_frequency_valid false)) in
  toggle_start_button v.

(** [set_averages(state, value)]. *)
Definition set_averages (state : bool) (value : string) (v : View) : Eff View :=
  let* _ :=
    (if state then
       let* _ := update_model (with_averages_valid true) in
       let* n := lift (int_of_string value) in
       let* _ := update_model (with_averages n) in
       let* M := get_model in
       emit "set_averages" (Text (pretty (averages M)))
     else update_model (with_averages_valid false)) in
  toggle_start_button v.

(** [start_measurement]: the dialog is shown and the settings are sent again
    before the start signal. The pending events of the application that are
    processed in between are left out. *)
Definition start_measurement (v : View) : Eff View :=
  let v := with_measurement_dialog (show (measurement_dialog v)) v in
  let* M := get_model in
  let* _ := emit "set_frequency" (Text (str_of_frequency (measurement_frequency M))) in
  let* _ := emit "set_averages" (Text (pretty (averages M))) in
  let* _ := emit "start_measurement" NoValue in
  ret v.

(** What a signal of the host carries under [key]: a measurement under
    "measurement_data", a text under every other key. *)
Definition signal_payload (key : string) : Type :=
  if String.eqb key "measurement_data" then Measurement else string.

(** [process_signals(key, value)]. [None] stands for a call that does not
    return (see [hide]). Under the key "measurement_data" with the dialog
    not visible, every later comparison of the key fails. *)
Definition process_signals (key : string)
  : signal_payload key → View → option (Eff View) :=
  match String.eqb key "measurement_data" as b
        return ((if b then Measurement else string) → View → option (Eff View))
  with
  | true => fun value v =>
      if dialog_visible (measurement_dialog v) then
        d ← hide (measurement_dialog v);
        Some (let* _ := set_displayed_measurement (Some value) in
              let* _ := add_measurement value in
              ret (with_measurement_dialog d v))
      else Some (ret v)
  | false => fun value v =>
      if String.eqb key "measurement_error" && dialog_visible (measurement_dialog v)
      then
        d ← hide (measurement_dialog v);
        Some (let* _ := emit "notification" (Texts ["Error"; value]) in
              ret (with_measurement_dialog d v))
      else if String.eqb key "failure_set_frequency"
              && String.eqb (frequency_text v) value
      then Some (ret (on_set_frequency_failure v))
      else if String.eqb key "failure_set_averages"
              && String.eqb (averages_text v) value
      then Some (ret (on_set_averages_failure v))
      else if String.eqb key "active_spectrometer_changed"
      then Some (ret (with_spectrometer_label ("Spectrometer: " +:+ value) v))
      else Some (ret v)
  end.

(** [on_measurement_save_button_clicked] and
    [on_measurement_load_button_clicked], with the file manager's answer as
    an argument: a path, or nothing when the user gave none. *)
Definition on_measurement_save_button_clicked (file_name : option string) : Eff unit :=
  match file_name with
  | Some path => if String.eqb path "" then ret tt else save_measurement path
  | None => ret tt
  end.

Definition on_measurement_load_button_clicked (file_name : option string) : Eff unit :=
  match file_name with
  | Some path => if String.eqb path "" then ret tt else load_measurement path
  | None => ret tt
  end.

(** *** Predicates of the statements below *)

(** The world after the host was sent an Error notification and nothing
    else happened. *)
Definition notified (message : string) (w : World) : World :=
  with_emitted (emitted w ++ [("notification", Texts ["Error"; message])])%list w.

(** The displayed measurement is the one added last (none on an empty
    list). *)
Definition displayed_is_last (M : Model) : Prop :=
  displayed_measurement M = last (measurements M).

(** Two models with the same view mode and measurement settings. *)
Definition same_settings (M M' : Model) : Prop :=
  view_mode M' = view_mode M
  ∧ frequency_valid M' = frequency_valid M
  ∧ averages_valid M' = averages_valid M
  ∧ measurement_frequency M' = measurement_frequency M
  ∧ averages M' = averages M.

(** The dialog [Apodization(measurement)] comes to. *)
Definition apodization_dialog (measurement : Measurement) : Apodization :=
  {| dialog_measurement := measurement;
     functions := [fid; GaussianFunction; CustomFunction];
     default_function := 0%nat |}.

(** The dialog once [hide] has returned. *)
Definition hidden (d : MeasurementDialog) : MeasurementDialog :=
  {| finished := finished d; dialog_visible := false; spinner_running := false |}.

(** ** Properties *)

(** *** sympify on the module's expressions *)

Example sympify_fid :
  Sympy.sympify "exp( -x / T2star )"
  = Some (Sympy.Exp (Sympy.Div (Sympy.Neg (Sympy.Symbol "x")) (Sympy.Symbol "T2star"))).
Proof. vm_compute. reflexivity. Qed.

Example sympify_lorentzian :
  Sympy.sympify "1 / (1 + (x / T2star)^2)"
  = Some (Sympy.Div (Sympy.Integer 1)
            (Sympy.Add (Sympy.Integer 1)
               (Sympy.Pow (Sympy.Div (Sympy.Symbol "x") (Sympy.Symbol "T2star"))
                  (Sympy.Integer 2)))).
Proof. vm_compute. reflexivity. Qed.

Example sympify_precedence :
  Sympy.sympify "-x**2 + 3*y - 1"
  = Some (Sympy.Sub
            (Sympy.Add (Sympy.Neg (Sympy.Pow (Sympy.Symbol "x") (Sympy.Integer 2)))
               (Sympy.Mul (Sympy.Integer 3) (Sympy.Symbol "y")))
            (Sympy.Integer 1)).
Proof. vm_compute. reflexivity. Qed.

Example sympify_rejects : Sympy.sympify "exp( -x / " = None.
Proof. vm_compute. reflexivity. Qed.

(** *** The effect monad *)

Lemma bind_ret_l {A B} (a : A) (k : A → Eff B) (w : World) :
  bind (ret a) k w = k a w.
Proof. reflexivity. Qed.

Lemma bind_raise {A B} (e : exn) (k : A → Eff B) (w : World) :
  bind (raise e) k w = (w, inl e).
Proof. reflexivity. Qed.

Lemma bind_assoc {A B C} (m : Eff A) (k : A → Eff B) (h : B → Eff C) (w : World) :
  bind (bind m k) h w = bind m (fun a => bind (k a) h) w.
Proof.
  unfold bind. destruct (m w) as [w' [e | a]]; reflexivity.
Qed.

Lemma try_except_value {A} (m : Eff A) (handler : exn → Eff A) (w w' : World) (a : A) :
  m w = (w', inr a) → try_except m handler w = (w', inr a).
Proof. intros H. unfold try_except. rewrite H. reflexivity. Qed.

Lemma try_except_raised {A} (m : Eff A) (handler : exn → Eff A) (w w' : World) (e : exn) :
  m w = (w', inl e) → try_except m handler w = handler e w'.
Proof. intros H. unfold try_except. rewrite H. reflexivity. Qed.

Lemma with_model_id (w : World) : with_model (model w) w = w.
Proof. destruct w; reflexivity. Qed.

Lemma with_view_mode_id (M : Model) : with_view_mode (view_mode M) M = M.
Proof. destruct M; reflexivity. Qed.

Lemma with_view_mode_twice (u v : string) (M : Model) :
  with_view_mode u (with_view_mode v M) = with_view_mode u M.
Proof. reflexivity. Qed.

(** *** change_view_mode *)

Lemma change_view_mode_run (w : World) :
  change_view_mode w
  = (with_model
       (with_view_mode
          (if String.eqb (view_mode (model w)) FFT_VIEW then TIME_VIEW else FFT_VIEW)
          (model w)) w,
     inr tt).
Proof.
  unfold change_view_mode, bind, get_model.
  destruct (String.eqb (view_mode (model w)) FFT_VIEW); reflexivity.
Qed.

(** C9: [change_view_mode] returns normally, takes FFT_VIEW to TIME_VIEW and
    every other mode to FFT_VIEW, changes nothing but the view mode (the
    rest of the model, the files and the signals are those of the world it
    started from), and from a mode that is FFT_VIEW or TIME_VIEW two calls
    give back the world they started from. *)
Theorem change_view_mode_involution (w : World) :
  outcome change_view_mode w = inr tt
  ∧ view_mode (model (exec change_view_mode w))
    = (if String.eqb (view_mode (model w)) FFT_VIEW then TIME_VIEW else FFT_VIEW)
  ∧ exec change_view_mode w
    = with_model
        (with_view_mode (view_mode (model (exec change_view_mode w))) (model w)) w
  ∧ (view_mode (model w) = FFT_VIEW ∨ view_mode (model w) = TIME_VIEW →
     exec change_view_mode (exec change_view_mode w) = w).
Proof.
  unfold exec, outcome. rewrite !change_view_mode_run. cbn [fst snd].
  repeat split.
  intros Hmode. cbn [fst model with_model view_mode with_view_mode].
  destruct w as [M fs em]. unfold with_model. cbn [model files emitted] in *.
  f_equal. rewrite with_view_mode_twice.
  transitivity (with_view_mode (view_mode M) M); [| apply with_view_mode_id].
  f_equal.
  destruct (String.eqb (view_mode M) FFT_VIEW) eqn:E1.
  - apply String.eqb_eq in E1.
    destruct (String.eqb TIME_VIEW FFT_VIEW) eqn:E2.
    + apply String.eqb_eq in E2. congruence.
    + congruence.
  - apply String.eqb_neq in E1.
    rewrite String.eqb_refl.
    destruct Hmode as [H | H]; congruence.
Qed.

(** *** save_measurement *)

Lemma last_cons {A} (ms : list A) (m0 d : A) :
  List.last (m0 :: ms) d = List.last ms m0.
Proof.
  revert m0 d. induction ms as [| m1 ms IH]; intros m0 d; [reflexivity |].
  change (List.last (m1 :: ms) d = List.last (m1 :: ms) m0).
  rewrite !IH. reflexivity.
Qed.

Lemma last_snoc {A} (l ms : list A) (m0 m : A) :
  m0 :: ms = (l ++ [m])%list → List.last ms m0 = m.
Proof.
  intros H. rewrite <- (last_cons ms m0 m), H. apply last_last.
Qed.

Lemma save_measurement_empty (file_name : string) (w : World) :
  measurements (model w) = [] → save_measurement file_name w = (w, inr tt).
Proof.
  intros H. unfold save_measurement, bind, get_model. rewrite H. reflexivity.
Qed.

Lemma save_measurement_model (file_name : string) (w : World) :
  model (exec (save_measurement file_name) w) = model w.
Proof.
  unfold exec, save_measurement, bind, get_model.
  destruct (measurements (model w)) as [| m0 rest]; [reflexivity |].
  destruct (to_json (List.last rest m0)) as [e | j]; [reflexivity |].
  unfold lift, ret, open_write, json_dump_into.
  destruct (open_error (files w) file_name); [reflexivity |].
  cbn [files with_files model emitted].
  destruct (json_dump j) as [[e partial] | text]; reflexivity.
Qed.

Lemma save_measurement_snoc (file_name : string) (w : World) ms m :
  measurements (model w) = (ms ++ [m])%list →
  save_measurement file_name w
  = match to_json m with
    | inl e => (w, inl e)
    | inr j =>
        match open_error (files w) file_name with
        | Some e => (w, inl e)
        | None =>
            match json_dump j with
            | inr text => (with_files (<[file_name := text]> (files w)) w, inr tt)
            | inl (e, partial) =>
                (with_files (<[file_name := partial]> (files w)) w, inl e)
            end
        end
    end.
Proof.
  intros H. unfold save_measurement, bind, get_model.
  destruct (measurements (model w)) as [| m0 rest] eqn:E.
  - destruct ms; discriminate.
  - rewrite (last_snoc ms rest m0 m H).
    destruct (to_json m) as [e | j]; [reflexivity |].
    unfold lift, ret, open_write, json_dump_into.
    destruct (open_error (files w) file_name); [reflexivity |].
    cbn [files with_files model emitted].
    destruct (json_dump j) as [[e partial] | text];
      unfold with_files; cbn [files model emitted];
      rewrite insert_insert_eq; reflexivity.
Qed.

Lemma save_measurement_written (file_name : string) (w : World) ms m :
  measurements (model w) = (ms ++ [m])%list →
  outcome (save_measurement file_name) w = inr tt →
  ∃ j text, to_json m = inr j ∧ json_dump j = inr text
            ∧ files (exec (save_measurement file_name) w)
              = <[file_name := text]> (files w).
Proof.
  intros Hms. unfold outcome, exec. rewrite (save_measurement_snoc _ _ _ _ Hms).
  destruct (to_json m) as [e | j] eqn:Hj; [discriminate |].
  destruct (open_error (files w) file_name); [discriminate |].
  destruct (json_dump j) as [[e partial] | text] eqn:Htext; [discriminate |].
  intros _. exists j, text. split; [reflexivity |]. split; [exact Htext | reflexivity].
Qed.

(** C8: [save_measurement] leaves the model and the signals alone, however
    it ends. On an empty measurement list it returns with the world
    unchanged, so no file is created or written. On a list that ends in
    [m]: when it returns, the file at [file_name] holds the dump of
    [m.to_json()] and every other path is as before, and it does return
    when [to_json], the opening of the file and the dump raise nothing;
    when an exception leaves it, either no file was touched or the file
    holds what the dump wrote before it raised. Which measurement is
    displayed plays no part, and right after [add_measurement m] it is [m]
    that is written. *)
Theorem save_measurement_writes_last (file_name : string) (w : World) :
  model (exec (save_measurement file_name) w) = model w
  ∧ emitted (exec (save_measurement file_name) w) = emitted w
  ∧ (measurements (model w) = [] → save_measurement file_name w = (w, inr tt))
  ∧ (∀ ms m, measurements (model w) = (ms ++ [m])%list →
       (outcome (save_measurement file_name) w = inr tt →
        ∃ j text, to_json m = inr j ∧ json_dump j = inr text
                  ∧ files (exec (save_measurement file_name) w)
                    = <[file_name := text]> (files w))
       ∧ (∀ j text, to_json m = inr j → open_error (files w) file_name = None →
                    json_dump j = inr text →
                    save_measurement file_name w
                    = (with_files (<[file_name := text]> (files w)) w, inr tt))
       ∧ (∀ e, outcome (save_measurement file_name) w = inl e →
               files (exec (save_measurement file_name) w) = files w
               ∨ ∃ j partial, to_json m = inr j ∧ json_dump j = inl (e, partial)
                              ∧ files (exec (save_measurement file_name) w)
                                = <[file_name := partial]> (files w)))
  ∧ (∀ d, save_measurement file_name
            (with_model (with_displayed_measurement d (model w)) w)
          = (with_model (with_displayed_measurement d (model w))
               (exec (save_measurement file_name) w),
             outcome (save_measurement file_name) w))
  ∧ (∀ m, outcome (save_measurement file_name) (exec (add_measurement m) w) = inr tt →
          ∃ j text, to_json m = inr j ∧ json_dump j = inr text
                    ∧ files (exec (save_measurement file_name)
                               (exec (add_measurement m) w))
                      = <[file_name := text]> (files w)).
Proof.
  split; [apply save_measurement_model |].
  split.
  { unfold exec, save_measurement, bind, get_model.
    destruct (measurements (model w)) as [| m0 rest]; [reflexivity |].
    destruct (to_json (List.last rest m0)) as [e | j]; [reflexivity |].
    unfold lift, ret, open_write, json_dump_into.
    destruct (open_error (files w) file_name); [reflexivity |].
    cbn [files with_files model emitted].
    destruct (json_dump j) as [[e partial] | text]; reflexivity. }
  split; [apply save_measurement_empty |].
  split.
  { intros ms m Hms. split; [apply (save_measurement_written _ _ _ _ Hms) |].
    split.
    - intros j text Hj Hopen Htext.
      rewrite (save_measurement_snoc _ _ _ _ Hms), Hj, Hopen, Htext. reflexivity.
    - intros e. unfold outcome, exec. rewrite (save_measurement_snoc _ _ _ _ Hms).
      destruct (to_json m) as [e' | j] eqn:Hj; [left; reflexivity |].
      destruct (open_error (files w) file_name); [left; reflexivity |].
      destruct (json_dump j) as [[e' partial] | text] eqn:Htext; [| discriminate].
      cbn. intros [= ->]. right. exists j, partial.
      split; [reflexivity |]. split; [exact Htext | reflexivity]. }
  split.
  { intros d. unfold exec, outcome, save_measurement, bind, get_model.
    cbn [model with_model measurements with_displayed_measurement].
    destruct (measurements (model w)) as [| m0 rest]; [reflexivity |].
    destruct (to_json (List.last rest m0)) as [e | j]; [reflexivity |].
    unfold lift, ret, open_write, json_dump_into.
    cbn [files with_model].
    destruct (open_error (files w) file_name); [reflexivity |].
    cbn [files with_files model emitted with_model].
    destruct (json_dump j) as [[e partial] | text]; reflexivity. }
  intros m Hout.
  destruct (save_measurement_written file_name (exec (add_measurement m) w)
              (measurements (model w)) m eq_refl Hout)
    as (j & text & Hj & Htext & Hfiles).
  exists j, text. auto.
Qed.

(** *** load_measurement *)

Lemma error_notification_run (message : string) (w : World) :
  error_notification message w
  = (with_emitted (emitted w ++ [("notification", Texts ["Error"; message])])%list w,
     inr tt).
Proof. reflexivity. Qed.

Lemma load_measurement_missing (file_name : string) (w : World) :
  files w !! file_name = None →
  load_measurement file_name w = error_notification "File not found." w.
Proof.
  intros H. unfold load_measurement.
  rewrite (try_except_raised _ _ w w FileNotFoundError); [reflexivity |].
  unfold bind, open_read. rewrite H. reflexivity.
Qed.

Lemma load_measurement_undecodable (file_name : string) (w : World) s e :
  files w !! file_name = Some s → json_load s = inl e →
  load_measurement file_name w
  = match e with
    | FileNotFoundError => error_notification "File not found." w
    | JSONDecodeError | KeyError =>
        error_notification "File is not a valid measurement file." w
    | _ => (w, inl e)
    end.
Proof.
  intros H He. unfold load_measurement.
  rewrite (try_except_raised _ _ w w e).
  - destruct e; reflexivity.
  - unfold bind, open_read. rewrite H, He. reflexivity.
Qed.

Lemma load_measurement_unbuildable (file_name : string) (w : World) s j e :
  files w !! file_name = Some s → json_load s = inr j → from_json j = inl e →
  load_measurement file_name w
  = match e with
    | FileNotFoundError => error_notification "File not found." w
    | JSONDecodeError | KeyError =>
        error_notification "File is not a valid measurement file." w
    | _ => (w, inl e)
    end.
Proof.
  intros H Hj He. unfold load_measurement.
  rewrite (try_except_raised _ _ w w e).
  - destruct e; reflexivity.
  - unfold bind, open_read. rewrite H, Hj. cbn. rewrite He. reflexivity.
Qed.

Lemma load_measurement_loaded (file_name : string) (w : World) s j m :
  files w !! file_name = Some s → json_load s = inr j → from_json j = inr m →
  load_measurement file_name w
  = (with_model
       (with_displayed_measurement (Some m)
          (with_measurements (measurements (model w) ++ [m])%list (model w))) w,
     inr tt).
Proof.
  intros H Hj Hm. unfold load_measurement.
  apply try_except_value.
  unfold bind, open_read. rewrite H, Hj. cbn. rewrite Hm. reflexivity.
Qed.




(** *** Saving and loading again *)

(** X18: what the controller adds to the codec: on a list that ends in [m],
    when [m.to_json()] returns, the file can be opened and the dump returns
    its text, decoding that text gives the JSON value back and a measurement
    [m'] is built from it, then [save_measurement] returns and loading the
    file just saved adds and displays [m']. *)
Lemma save_then_load (file_name : string) (w : World) ms m j text m' :
  measurements (model w) = (ms ++ [m])%list →
  to_json m = inr j →
  open_error (files w) file_name = None →
  json_dump j = inr text →
  json_load text = inr j →
  from_json j = inr m' →
  let saved := exec (save_measurement file_name) w in
  outcome (save_measurement file_name) w = inr tt
  ∧ load_measurement file_name saved
    = (with_model
         (with_displayed_measurement (Some m')
            (with_measurements (ms ++ [m] ++ [m'])%list (model w))) saved,
       inr tt).
Proof.
  intros Hms Hj Hopen Htext Hload Hfrom saved.
  assert (Hrun : save_measurement file_name w
                 = (with_files (<[file_name := text]> (files w)) w, inr tt)).
  { rewrite (save_measurement_snoc _ _ _ _ Hms), Hj, Hopen, Htext. reflexivity. }
  assert (Hsaved : saved = with_files (<[file_name := text]> (files w)) w).
  { unfold saved, exec. rewrite Hrun. reflexivity. }
  split; [unfold outcome; rewrite Hrun; reflexivity |].
  rewrite (load_measurement_loaded file_name saved text j m').
  - rewrite Hsaved. cbn. rewrite Hms, <- app_assoc. reflexivity.
  - rewrite Hsaved. cbn. apply lookup_insert_eq.
  - exact Hload.
  - exact Hfrom.
Qed.

(** *** show_apodization_dialog *)

Lemma Apodization_init_offers (measurement : Measurement) :
  Apodization_init measurement
  = Some {| dialog_measurement := measurement;
            functions := [fid; GaussianFunction; CustomFunction];
            default_function := 0%nat |}.
Proof. reflexivity. Qed.

(** X20: with a measurement displayed and the dialog accepted with
    [function], the controller displays what [dialog.apodization(function)]
    returns and adds it to the list; when that call raises, the exception
    leaves the method and the world is unchanged. *)
Lemma show_apodization_dialog_accepted user (w : World) measurement dialog function :
  displayed_measurement (model w) = Some measurement →
  Apodization_init measurement = Some dialog →
  user dialog = Accepted function →
  show_apodization_dialog user w
  = match dialog_apodization dialog function with
    | inr apodized_measurement =>
        (with_model
           (with_measurements
              (measurements (model w) ++ [apodized_measurement])%list
              (with_displayed_measurement (Some apodized_measurement) (model w))) w,
         inr tt)
    | inl e => (w, inl e)
    end.
Proof.
  intros Hd Hdialog Huser.
  unfold show_apodization_dialog, bind, get_model. rewrite Hd, Hdialog, Huser.
  destruct (dialog_apodization dialog function); reflexivity.
Qed.

(** X21: with no measurement displayed, [show_apodization_dialog] opens no
    dialog: it sends the host one Error notification and returns, with the
    model and the files unchanged. *)
Lemma show_apodization_dialog_nothing_displayed user (w : World) :
  displayed_measurement (model w) = None →
  show_apodization_dialog user w = (notified "No measurement to apodize." w, inr tt).
Proof.
  intros Hd. unfold show_apodization_dialog, bind, get_model. rewrite Hd. reflexivity.
Qed.

(** X19: when the user rejects the dialog, [function] was never assigned:
    UnboundLocalError leaves the method, nothing is sent to the host, and
    the world is unchanged. *)
Lemma show_apodization_dialog_rejected user (w : World) measurement dialog :
  displayed_measurement (model w) = Some measurement →
  Apodization_init measurement = Some dialog →
  user dialog = Rejected →
  show_apodization_dialog user w = (w, inl UnboundLocalError).
Proof.
  intros Hd Hdialog Huser.
  unfold show_apodization_dialog, bind, get_model. rewrite Hd, Hdialog, Huser.
  reflexivity.
Qed.

(** *** The view *)

(** The view plots the series the displayed measurement holds; changing
    the view mode changes which one, and computes none. *)
Lemma update_displayed_measurement_series (M : Model) :
  series (update_displayed_measurement M)
  = if String.eqb (view_mode M) FFT_VIEW
    then (fun m => (fdx m, fdy m)) <$> displayed_measurement M
    else (fun m => (tdx m, tdy m)) <$> displayed_measurement M.
Proof.
  unfold update_displayed_measurement.
  destruct (String.eqb (view_mode M) FFT_VIEW); reflexivity.
Qed.


(** *** The window functions *)

Lemma FIDFunction_built : FIDFunction = Some fid.
Proof. vm_compute. reflexivity. Qed.

Lemma LorentzianFunction_built : LorentzianFunction = Some lorentzian.
Proof. vm_compute. reflexivity. Qed.

Lemma final_expr_fid :
  final_expr fid
  = Sympy.Exp (Sympy.Div (Sympy.Neg (Sympy.Symbol "x")) (Sympy.Integer 10)).
Proof. vm_compute. reflexivity. Qed.

Lemma final_expr_lorentzian :
  final_expr lorentzian
  = Sympy.Div (Sympy.Integer 1)
      (Sympy.Add (Sympy.Integer 1)
         (Sympy.Pow (Sympy.Div (Sympy.Symbol "x") (Sympy.Integer 10))
            (Sympy.Integer 2))).
Proof. vm_compute. reflexivity. Qed.

Lemma at_x_x (x : R) : at_x x "x" = x.
Proof. reflexivity. Qed.

Lemma evaluate_at_fid (x : R) : evaluate_at fid x = exp (- x / 10).
Proof.
  unfold evaluate_at. rewrite final_expr_fid. cbn [Sympy.eval].
  rewrite at_x_x. reflexivity.
Qed.

Lemma evaluate_at_lorentzian (x : R) :
  evaluate_at lorentzian x = (1 / (1 + (x / 10) * (x / 10)))%R.
Proof.
  unfold evaluate_at. rewrite final_expr_lorentzian. cbn [Sympy.eval].
  rewrite at_x_x. simpl powerRZ. f_equal. f_equal. ring.
Qed.


(** C7: the function at the default position of the apodization dialog's
    selection is [FIDFunction]: named FID, its expression is what sympify
    reads from "exp( -x / T2star )" and denotes exp(-x / T2star), its one
    parameter is T2star with value and default 10, its interval runs from
    0 to 30, and with the default parameter its value at [x] is
    exp(-x / 10). *)
Theorem FIDFunction_window (measurement : Measurement) :
  ∃ f dialog,
    FIDFunction = Some f
    ∧ Apodization_init measurement = Some dialog
    ∧ functions dialog !! default_function dialog = Some f
    ∧ name f = "FID"
    ∧ Sympy.sympify "exp( -x / T2star )" = Some (expr f)
    ∧ (∀ env, Sympy.eval env (expr f) = exp (- env "x" / env "T2star"))
    ∧ parameters f
      = [ {| p_name := "T2star (microseconds)"; symbol := "T2star";
             value := 10; default := 10 |} ]
    ∧ start_x f = 0 ∧ end_x f = 30
    ∧ (∀ x : R, evaluate_at f x = exp (- x / 10)).
Proof.
  exists fid. eexists. split; [reflexivity |].
  split; [apply Apodization_init_offers |].
  split; [reflexivity |].
  split; [reflexivity |].
  split; [vm_compute; reflexivity |].
  split; [intros env; reflexivity |].
  split; [reflexivity |].
  split; [reflexivity |].
  split; [reflexivity |].
  apply evaluate_at_fid.
Qed.


(** *** What the controller's methods leave alone *)

Lemma same_settings_refl (M : Model) : same_settings M M.
Proof. repeat split. Qed.

Ltac settings := unfold same_settings; cbn; repeat split; reflexivity.

(** X1: [load_measurement] never writes a file and never changes the view
    mode or the measurement settings; it keeps every measurement of the
    list, in order; it sends the host nothing or one Error notification;
    and when an exception leaves it (one that is no FileNotFoundError,
    JSONDecodeError or KeyError), the world is as it was. *)
Theorem load_measurement_frame (file_name : string) (w : World) :
  let w' := exec (load_measurement file_name) w in
  files w' = files w
  ∧ same_settings (model w) (model w')
  ∧ measurements (model w) `prefix_of` measurements (model w')
  ∧ (emitted w' = emitted w
     ∨ ∃ message,
         emitted w' = (emitted w ++ [("notification", Texts ["Error"; message])])%list)
  ∧ (∀ e, outcome (load_measurement file_name) w = inl e → w' = w).
Proof.
  unfold exec, outcome. cbn zeta.
  assert (Hfail : ∀ e : exn,
    let r := match e with
             | FileNotFoundError => error_notification "File not found." w
             | JSONDecodeError | KeyError =>
                 error_notification "File is not a valid measurement file." w
             | _ => (w, inl e)
             end in
    files (fst r) = files w
    ∧ same_settings (model w) (model (fst r))
    ∧ measurements (model w) `prefix_of` measurements (model (fst r))
    ∧ (emitted (fst r) = emitted w
       ∨ ∃ message,
           emitted (fst r)
           = (emitted w ++ [("notification", Texts ["Error"; message])])%list)
    ∧ (∀ e', snd r = inl e' → fst r = w)).
  { intros e. destruct e; cbn;
      (split; [reflexivity |]; split; [apply same_settings_refl |];
       split; [reflexivity |]; split; [eauto | intros e' H; congruence]). }
  destruct (files w !! file_name) as [s |] eqn:H.
  - destruct (json_load s) as [e | j] eqn:Hj.
    + rewrite (load_measurement_undecodable _ _ _ _ H Hj). apply Hfail.
    + destruct (from_json j) as [e | m] eqn:Hm.
      * rewrite (load_measurement_unbuildable _ _ _ _ _ H Hj Hm). apply Hfail.
      * rewrite (load_measurement_loaded _ _ _ _ _ H Hj Hm). cbn.
        split; [reflexivity |]. split; [settings |].
        split; [apply prefix_app_r; reflexivity |].
        split; [left; reflexivity | intros e He; discriminate].
  - rewrite (load_measurement_missing _ _ H). apply (Hfail FileNotFoundError).
Qed.

(** X2: whatever the user answers, [show_apodization_dialog] never writes a
    file and never changes the view mode or the measurement settings, and it
    changes the model in one case only: a measurement is displayed, the
    dialog is accepted and [dialog.apodization] returns; then what it
    returned is displayed and added at the end of the list. *)
Theorem show_apodization_dialog_all_or_nothing
    (user : Apodization → dialog_result) (w : World) :
  let w' := exec (show_apodization_dialog user) w in
  files w' = files w
  ∧ same_settings (model w) (model w')
  ∧ (model w' = model w
     ∨ ∃ measurement function apodized,
         displayed_measurement (model w) = Some measurement
         ∧ user (apodization_dialog measurement) = Accepted function
         ∧ dialog_apodization (apodization_dialog measurement) function = inr apodized
         ∧ displayed_measurement (model w') = Some apodized
         ∧ measurements (model w') = (measurements (model w) ++ [apodized])%list).
Proof.
  unfold exec, show_apodization_dialog, bind, get_model. cbn zeta.
  destruct (displayed_measurement (model w)) as [measurement |] eqn:Hd.
  - rewrite Apodization_init_offers.
    fold (apodization_dialog measurement).
    destruct (user (apodization_dialog measurement)) as [| function] eqn:Hu.
    + cbn. split; [reflexivity |]. split; [apply same_settings_refl | left; reflexivity].
    + destruct (dialog_apodization (apodization_dialog measurement) function)
        as [e | apodized] eqn:Ha; cbn.
      * split; [reflexivity |]. split; [apply same_settings_refl | left; reflexivity].
      * split; [reflexivity |]. split; [settings |].
        right. exists measurement, function, apodized. auto.
  - cbn. split; [reflexivity |]. split; [apply same_settings_refl | left; reflexivity].
Qed.


(** *** process_signals *)

Lemma hide_finished (d d' : MeasurementDialog) :
  hide d = Some d' →
  finished d = true ∧ finished d' = true ∧ dialog_visible d' = false.
Proof.
  unfold hide. destruct (finished d) eqn:E; [| discriminate].
  intros [= <-]. cbn. auto.
Qed.

(** Every way [process_signals] can return, for any key. *)
Lemma process_signals_cases (key : string) (value : signal_payload key)
    (v : View) (eff : Eff View) (w : World) :
  process_signals key value v = Some eff →
  ∃ w' v',
    eff w = (w', inr v')
    ∧ files w' = files w
    ∧ same_settings (model w) (model w')
    ∧ (model w' = model w
       ∨ (key = "measurement_data"
          ∧ dialog_visible (measurement_dialog v) = true
          ∧ ∃ m, displayed_measurement (model w') = Some m
                 ∧ measurements (model w') = (measurements (model w) ++ [m])%list))
    ∧ (emitted w' = emitted w
       ∨ (key = "measurement_error"
          ∧ dialog_visible (measurement_dialog v) = true
          ∧ ∃ message,
              emitted w'
              = (emitted w ++ [("notification", Texts ["Error"; message])])%list))
    ∧ finished (measurement_dialog v') = finished (measurement_dialog v)
    ∧ (dialog_visible (measurement_dialog v') = true →
       dialog_visible (measurement_dialog v) = true)
    ∧ start_enabled v' = start_enabled v
    ∧ frequency_text v' = frequency_text v
    ∧ averages_text v' = averages_text v.
Proof.
  unfold process_signals. revert value. unfold signal_payload.
  destruct (String.eqb key "measurement_data") eqn:Ekey; intros value H.
  - apply String.eqb_eq in Ekey.
    destruct (dialog_visible (measurement_dialog v)) eqn:Hvis.
    + destruct (hide (measurement_dialog v)) as [d |] eqn:Hhide; [| discriminate].
      injection H as <-. apply hide_finished in Hhide as (Hf & Hf' & Hv').
      eexists _, _. split; [reflexivity |]. cbn.
      split; [reflexivity |]. split; [settings |].
      split; [right; eauto |]. split; [left; reflexivity |].
      rewrite Hf, Hf', Hv'. repeat split; auto; discriminate.
    + injection H as <-. exists w, v. cbn.
      repeat split; auto using same_settings_refl; congruence.
  - destruct (String.eqb key "measurement_error"
              && dialog_visible (measurement_dialog v)) eqn:Eerr.
    { apply andb_prop in Eerr as [Ek Hvis]. apply String.eqb_eq in Ek.
      destruct (hide (measurement_dialog v)) as [d |] eqn:Hhide; [| discriminate].
      injection H as <-. apply hide_finished in Hhide as (Hf & Hf' & Hv').
      eexists _, _. split; [reflexivity |]. cbn.
      split; [reflexivity |]. split; [settings |].
      split; [left; reflexivity |]. split; [right; eauto |].
      rewrite Hf, Hf', Hv'. repeat split; auto; discriminate. }
    destruct (String.eqb key "failure_set_frequency"
              && String.eqb (frequency_text v) value);
      [| destruct (String.eqb key "failure_set_averages"
                   && String.eqb (averages_text v) value);
         [| destruct (String.eqb key "active_spectrometer_changed") ]];
      injection H as <-; eexists w, _; (split; [reflexivity |]); cbn;
      repeat split; auto using same_settings_refl.
Qed.

(** X3: whenever [process_signals] returns, it returns normally; it never
    writes a file, never changes the view mode or the measurement settings,
    never shows the dialog and never touches the start button; it changes
    the model only under the key "measurement_data" with the dialog
    visible, and sends the host something only under "measurement_error"
    with the dialog visible. *)
Theorem process_signals_frame (key : string) (value : signal_payload key)
    (v : View) (eff : Eff View) (w : World) :
  process_signals key value v = Some eff →
  (∃ v', outcome eff w = inr v'
         ∧ start_enabled v' = start_enabled v
         ∧ (dialog_visible (measurement_dialog v') = true →
            dialog_visible (measurement_dialog v) = true))
  ∧ files (exec eff w) = files w
  ∧ same_settings (model w) (model (exec eff w))
  ∧ (model (exec eff w) ≠ model w →
     key = "measurement_data" ∧ dialog_visible (measurement_dialog v) = true)
  ∧ (emitted (exec eff w) ≠ emitted w →
     key = "measurement_error" ∧ dialog_visible (measurement_dialog v) = true).
Proof.
  intros H.
  destruct (process_signals_cases key value v eff w H)
    as (w' & v' & Heff & Hfiles & Hset & Hmodel & Hemit & _ & Hvis & Hstart & _).
  unfold exec, outcome. rewrite Heff. cbn.
  split; [exists v'; auto |]. split; [exact Hfiles |]. split; [exact Hset |].
  split.
  - intros Hne. destruct Hmodel as [Heq | (Hk & Hv & _)]; [contradiction | auto].
  - intros Hne. destruct Hemit as [Heq | (Hk & Hv & _)]; [contradiction | auto].
Qed.

(** X4: a signal whose key is none of the five that [process_signals]
    knows is ignored: the call returns at once, with the view and the world
    as they were. *)
Theorem process_signals_unknown_key (key : string) (value : signal_payload key)
    (v : View) :
  key ≠ "measurement_data" → key ≠ "measurement_error" →
  key ≠ "failure_set_frequency" → key ≠ "failure_set_averages" →
  key ≠ "active_spectrometer_changed" →
  process_signals key value v = Some (ret v).
Proof.
  intros H1 H2 H3 H4 H5.
  apply String.eqb_neq in H1, H2, H3, H4, H5.
  unfold process_signals. revert value. unfold signal_payload.
  rewrite H1. intros value. rewrite H2, H3, H4, H5. reflexivity.
Qed.


Lemma hide_when_finished (d : MeasurementDialog) :
  finished d = true → hide d = Some (hidden d).
Proof. intros H. unfold hide, hidden. rewrite H. reflexivity. Qed.

(** X5: with the dialog visible, a "measurement_data" signal displays the
    measurement, adds it at the end of the list and hides the dialog; the
    same signal once more is then ignored, so a measurement is taken once. *)
Theorem process_signals_takes_measurement_once (m : Measurement) (v : View) (w : World) :
  dialog_visible (measurement_dialog v) = true →
  finished (measurement_dialog v) = true →
  let v' := with_measurement_dialog (hidden (measurement_dialog v)) v in
  ∃ eff,
    process_signals "measurement_data" m v = Some eff
    ∧ eff w
      = (with_model
           (with_measurements (measurements (model w) ++ [m])%list
              (with_displayed_measurement (Some m) (model w))) w,
         inr v')
    ∧ process_signals "measurement_data" m v' = Some (ret v').
Proof.
  intros Hvis Hfin v'.
  unfold process_signals. cbn [String.eqb Ascii.eqb Bool.eqb].
  rewrite Hvis, (hide_when_finished _ Hfin). cbn.
  eexists. split; [reflexivity |]. split; reflexivity.
Qed.

(** X6: while the dialog is not visible, no measurement is awaited: a
    "measurement_data" or "measurement_error" signal is ignored, with the
    view and the world as they were. *)
Theorem process_signals_dialog_hidden (m : Measurement) (message : string) (v : View) :
  dialog_visible (measurement_dialog v) = false →
  process_signals "measurement_data" m v = Some (ret v)
  ∧ process_signals "measurement_error" message v = Some (ret v).
Proof.
  intros Hvis. unfold process_signals. cbn [String.eqb Ascii.eqb Bool.eqb andb].
  rewrite Hvis. split; reflexivity.
Qed.

(** X7: with the dialog visible, a "measurement_error" signal hides the
    dialog and sends the host one Error notification with the signal's
    text; the model and the files are unchanged. *)
Theorem process_signals_measurement_error (message : string) (v : View) (w : World) :
  dialog_visible (measurement_dialog v) = true →
  finished (measurement_dialog v) = true →
  ∃ eff,
    process_signals "measurement_error" message v = Some eff
    ∧ eff w
      = (notified message w,
         inr (with_measurement_dialog (hidden (measurement_dialog v)) v)).
Proof.
  intros Hvis Hfin.
  unfold process_signals. cbn [String.eqb Ascii.eqb Bool.eqb andb].
  rewrite Hvis, (hide_when_finished _ Hfin). cbn.
  eexists. split; reflexivity.
Qed.

(** X8: a "failure_set_frequency" signal marks the frequency field red
    exactly when the field still shows the value that failed, and a
    "failure_set_averages" signal the averages field likewise; otherwise
    the signal is ignored. Nothing else changes in either case. *)
Theorem process_signals_failure_marks_field (value : string) (v : View) :
  process_signals "failure_set_frequency" value v
  = Some (ret (if String.eqb (frequency_text v) value
               then on_set_frequency_failure v else v))
  ∧ process_signals "failure_set_averages" value v
    = Some (ret (if String.eqb (averages_text v) value
                 then on_set_averages_failure v else v)).
Proof.
  unfold process_signals. cbn [String.eqb Ascii.eqb Bool.eqb andb].
  split.
  - destruct (String.eqb (frequency_text v) value); reflexivity.
  - destruct (String.eqb (averages_text v) value); reflexivity.
Qed.

(** *** set_frequency, set_averages and start_measurement *)

Lemma set_frequency_run (state : bool) (value : string) (v : View) (w : World) :
  set_frequency state value v w
  = if state then
      match float_of_string value with
      | inl e => (with_model (with_frequency_valid true (model w)) w, inl e)
      | inr f =>
          let M' := with_measurement_frequency (times_1e6 f)
                      (with_frequency_valid true (model w)) in
          ({| model := M'; files := files w;
              emitted := (emitted w
                          ++ [("set_frequency", Text (str_of_frequency (times_1e6 f)))])%list |},
           inr (with_start_enabled (averages_valid (model w)) v))
      end
    else (with_model (with_frequency_valid false (model w)) w,
          inr (with_start_enabled false v)).
Proof.
  unfold set_frequency, bind. destruct state; [| reflexivity].
  cbn. destruct (float_of_string value); reflexivity.
Qed.

Lemma set_averages_run (state : bool) (value : string) (v : View) (w : World) :
  set_averages state value v w
  = if state then
      match int_of_string value with
      | inl e => (with_model (with_averages_valid true (model w)) w, inl e)
      | inr n =>
          let M' := with_averages n (with_averages_valid true (model w)) in
          ({| model := M'; files := files w;
              emitted := (emitted w ++ [("set_averages", Text (pretty n))])%list |},
           inr (with_start_enabled (frequency_valid (model w)) v))
      end
    else (with_model (with_averages_valid false (model w)) w,
          inr (with_start_enabled false v)).
Proof.
  unfold set_averages, bind. destruct state.
  - cbn. destruct (int_of_string value); cbn; [reflexivity |].
    rewrite andb_true_r. reflexivity.
  - cbn. rewrite andb_false_r. reflexivity.
Qed.

(** X9: when [set_frequency] or [set_averages] returns normally, the flag
    of its field is the state it was given, the other flag and the
    measurements are untouched, and the start button is enabled exactly
    when both flags are set; with the state unset the stored value is kept
    and nothing is sent to the host. *)
Theorem settings_toggle_start_button (state : bool) (value : string) (v : View) (w : World) :
  (∀ v', outcome (set_frequency state value v) w = inr v' →
         let M' := model (exec (set_frequency state value v) w) in
         frequency_valid M' = state
         ∧ averages_valid M' = averages_valid (model w)
         ∧ measurements M' = measurements (model w)
         ∧ displayed_measurement M' = displayed_measurement (model w)
         ∧ v' = with_start_enabled (frequency_valid M' && averages_valid M') v
         ∧ (state = false →
            measurement_frequency M' = measurement_frequency (model w)
            ∧ emitted (exec (set_frequency state value v) w) = emitted w))
  ∧ (∀ v', outcome (set_averages state value v) w = inr v' →
           let M' := model (exec (set_averages state value v) w) in
           averages_valid M' = state
           ∧ frequency_valid M' = frequency_valid (model w)
           ∧ measurements M' = measurements (model w)
           ∧ displayed_measurement M' = displayed_measurement (model w)
           ∧ v' = with_start_enabled (frequency_valid M' && averages_valid M') v
           ∧ (state = false →
              averages M' = averages (model w)
              ∧ emitted (exec (set_averages state value v) w) = emitted w)).
Proof.
  unfold exec, outcome. rewrite set_frequency_run, set_averages_run.
  split; intros v'; destruct state.
  - destruct (float_of_string value); cbn; [discriminate |].
    intros [= <-]. repeat split; discriminate.
  - cbn. intros [= <-]. repeat split.
  - destruct (int_of_string value); cbn; [discriminate |].
    intros [= <-]. rewrite andb_true_r. repeat split; discriminate.
  - cbn. intros [= <-]. rewrite andb_false_r. repeat split.
Qed.

(** X10: when the text of a valid field does not convert ([float] or [int]
    raises), the exception leaves the method after the validity flag was
    set: the flag is set, the stored value is the old one, nothing is sent
    to the host and the start button is not updated. *)
Theorem settings_conversion_raises (value : string) (v : View) (w : World) :
  (∀ e, float_of_string value = inl e →
        set_frequency true value v w
        = (with_model (with_frequency_valid true (model w)) w, inl e))
  ∧ (∀ e, int_of_string value = inl e →
          set_averages true value v w
          = (with_model (with_averages_valid true (model w)) w, inl e)).
Proof.
  rewrite set_frequency_run, set_averages_run.
  split; intros e He; rewrite He; reflexivity.
Qed.

Lemma start_measurement_run (v : View) (w : World) :
  start_measurement v w
  = (with_emitted
       (emitted w
        ++ [("set_frequency", Text (str_of_frequency (measurement_frequency (model w))));
            ("set_averages", Text (pretty (averages (model w))));
            ("start_measurement", NoValue)])%list w,
     inr (with_measurement_dialog (show (measurement_dialog v)) v)).
Proof.
  unfold start_measurement, bind, get_model, emit, ret, with_emitted. cbn.
  rewrite <- !app_assoc. reflexivity.
Qed.

(** X11: [start_measurement] leaves the model and the files alone, sends
    the host the stored frequency, the stored averages and the start signal,
    in this order, and shows the dialog, so that the "measurement_data"
    signal that answers is taken: the measurement is displayed and added,
    and the dialog is hidden again. *)
Theorem start_measurement_then_data (m : Measurement) (v : View) (w : World) :
  finished (measurement_dialog v) = true →
  let w1 := exec (start_measurement v) w in
  ∃ v1 eff,
    outcome (start_measurement v) w = inr v1
    ∧ model w1 = model w ∧ files w1 = files w
    ∧ emitted w1
      = (emitted w
         ++ [("set_frequency", Text (str_of_frequency (measurement_frequency (model w))));
             ("set_averages", Text (pretty (averages (model w))));
             ("start_measurement", NoValue)])%list
    ∧ dialog_visible (measurement_dialog v1) = true
    ∧ process_signals "measurement_data" m v1 = Some eff
    ∧ ∃ v2,
        eff w1
        = (with_model
             (with_measurements (measurements (model w) ++ [m])%list
                (with_displayed_measurement (Some m) (model w))) w1,
           inr v2)
        ∧ dialog_visible (measurement_dialog v2) = false.
Proof.
  intros Hfin. unfold exec, outcome. rewrite start_measurement_run. cbn [fst snd].
  eexists _, _. split; [reflexivity |].
  split; [reflexivity |]. split; [reflexivity |]. split; [reflexivity |].
  split; [reflexivity |].
  unfold process_signals. cbn [String.eqb Ascii.eqb Bool.eqb].
  cbn [measurement_dialog with_measurement_dialog dialog_visible show].
  rewrite hide_when_finished by exact Hfin.
  split; [reflexivity |].
  eexists. split; reflexivity.
Qed.


(** X12: every dialog the class builds has [finished] set, and [show] and
    the movie's slot keep it so; with [finished] set, [process_signals]
    returns for every signal, normally, and leaves [finished] set. With
    [finished] unset and the dialog visible, the wait in [hide] never ends
    and a "measurement_data" signal is never answered. *)
Theorem process_signals_returns (key : string) (value : signal_payload key) (v : View) :
  finished MeasurementDialog_init = true
  ∧ (∀ d, finished (show d) = finished d ∧ finished (on_movie_finished d) = true)
  ∧ (finished (measurement_dialog v) = true →
     ∃ eff, process_signals key value v = Some eff
            ∧ ∀ w, ∃ w' v', eff w = (w', inr v')
                            ∧ finished (measurement_dialog v') = true)
  ∧ (finished (measurement_dialog v) = false →
     dialog_visible (measurement_dialog v) = true →
     ∀ m, process_signals "measurement_data" m v = None).
Proof.
  split; [reflexivity |]. split; [intros d; split; reflexivity |]. split.
  - intros Hfin.
    assert (Hsome : ∃ eff, process_signals key value v = Some eff).
    { unfold process_signals. revert value. unfold signal_payload.
      destruct (String.eqb key "measurement_data"); intros value;
        rewrite ?(hide_when_finished _ Hfin).
      - destruct (dialog_visible (measurement_dialog v)); cbn; eauto.
      - repeat match goal with
               | |- context [if ?c then _ else _] => destruct c
               end; cbn; eauto. }
    destruct Hsome as [eff Heff]. exists eff. split; [exact Heff |].
    intros w.
    destruct (process_signals_cases key value v eff w Heff)
      as (w' & v' & Hrun & _ & _ & _ & _ & Hf & _).
    exists w', v'. split; [exact Hrun | congruence].
  - intros Hfin Hvis m. unfold process_signals, hide.
    cbn [String.eqb Ascii.eqb Bool.eqb]. rewrite Hvis, Hfin. reflexivity.
Qed.

(** *** The displayed measurement is the last one *)

Lemma displayed_is_last_set (m : Measurement) (M : Model) :
  displayed_is_last
    (with_displayed_measurement (Some m)
       (with_measurements (measurements M ++ [m])%list M))
  ∧ displayed_is_last
      (with_measurements (measurements M ++ [m])%list
         (with_displayed_measurement (Some m) M)).
Proof.
  unfold displayed_is_last. cbn. rewrite list.last_snoc. auto.
Qed.

Lemma load_measurement_model (file_name : string) (w : World) :
  model (exec (load_measurement file_name) w) = model w
  ∨ ∃ m, model (exec (load_measurement file_name) w)
         = with_displayed_measurement (Some m)
             (with_measurements (measurements (model w) ++ [m])%list (model w)).
Proof.
  unfold exec.
  destruct (files w !! file_name) as [s |] eqn:H.
  - destruct (json_load s) as [e | j] eqn:Hj.
    + left. rewrite (load_measurement_undecodable _ _ _ _ H Hj).
      destruct e; reflexivity.
    + destruct (from_json j) as [e | m] eqn:Hm.
      * left. rewrite (load_measurement_unbuildable _ _ _ _ _ H Hj Hm).
        destruct e; reflexivity.
      * right. exists m. rewrite (load_measurement_loaded _ _ _ _ _ H Hj Hm).
        reflexivity.
  - left. rewrite (load_measurement_missing _ _ H). reflexivity.
Qed.

Lemma show_apodization_dialog_model (user : Apodization → dialog_result) (w : World) :
  model (exec (show_apodization_dialog user) w) = model w
  ∨ ∃ m, model (exec (show_apodization_dialog user) w)
         = with_measurements (measurements (model w) ++ [m])%list
             (with_displayed_measurement (Some m) (model w)).
Proof.
  unfold exec, show_apodization_dialog, bind, get_model.
  destruct (displayed_measurement (model w)) as [measurement |]; [| left; reflexivity].
  rewrite Apodization_init_offers.
  match goal with |- context [user ?d] => destruct (user d) as [| function] end;
    [left; reflexivity |].
  match goal with
  | |- context [dialog_apodization ?d ?f] => destruct (dialog_apodization d f)
  end; [left; reflexivity | right; eauto].
Qed.

Lemma settings_keep_measurements (state : bool) (value : string) (v : View) (w : World) :
  let M1 := model (exec (set_frequency state value v) w) in
  let M2 := model (exec (set_averages state value v) w) in
  let M3 := model (exec (start_measurement v) w) in
  (measurements M1 = measurements (model w)
   ∧ displayed_measurement M1 = displayed_measurement (model w))
  ∧ (measurements M2 = measurements (model w)
     ∧ displayed_measurement M2 = displayed_measurement (model w))
  ∧ (measurements M3 = measurements (model w)
     ∧ displayed_measurement M3 = displayed_measurement (model w)).
Proof.
  unfold exec. rewrite set_frequency_run, set_averages_run, start_measurement_run.
  destruct state; cbn;
    destruct (float_of_string value), (int_of_string value); cbn; auto.
Qed.

(** X13: the controller keeps the displayed measurement equal to the one
    added last: when this holds of the model, it holds again after
    [load_measurement], [save_measurement], [change_view_mode],
    [show_apodization_dialog], [process_signals], [start_measurement],
    [set_frequency] and [set_averages], however they end. *)
Theorem displayed_is_last_preserved (w : World) :
  displayed_is_last (model w) →
  (∀ file_name, displayed_is_last (model (exec (load_measurement file_name) w)))
  ∧ (∀ file_name, displayed_is_last (model (exec (save_measurement file_name) w)))
  ∧ displayed_is_last (model (exec change_view_mode w))
  ∧ (∀ user, displayed_is_last (model (exec (show_apodization_dialog user) w)))
  ∧ (∀ key value v eff, process_signals key value v = Some eff →
                        displayed_is_last (model (exec eff w)))
  ∧ (∀ v, displayed_is_last (model (exec (start_measurement v) w)))
  ∧ (∀ state value v,
       displayed_is_last (model (exec (set_frequency state value v) w))
       ∧ displayed_is_last (model (exec (set_averages state value v) w))).
Proof.
  intros Hinv. split.
  { intros file_name.
    destruct (load_measurement_model file_name w) as [-> | [m ->]];
      [exact Hinv | apply displayed_is_last_set]. }
  split.
  { intros file_name. rewrite save_measurement_model. exact Hinv. }
  split.
  { unfold exec. rewrite change_view_mode_run. exact Hinv. }
  split.
  { intros user.
    destruct (show_apodization_dialog_model user w) as [-> | [m ->]];
      [exact Hinv | apply displayed_is_last_set]. }
  split.
  { intros key value v eff H.
    destruct (process_signals_cases key value v eff w H)
      as (w' & v' & Hrun & _ & _ & Hmodel & _).
    unfold exec. rewrite Hrun. cbn.
    destruct Hmodel as [-> | (_ & _ & m & Hd & Hms)]; [exact Hinv |].
    unfold displayed_is_last. rewrite Hd, Hms, list.last_snoc. reflexivity. }
  split.
  { intros v.
    destruct (settings_keep_measurements true "" v w) as (_ & _ & Hms & Hd).
    unfold displayed_is_last. rewrite Hms, Hd. exact Hinv. }
  intros state value v.
  destruct (settings_keep_measurements state value v w)
    as ((Hms1 & Hd1) & (Hms2 & Hd2) & _).
  unfold displayed_is_last. rewrite Hms1, Hd1, Hms2, Hd2. auto.
Qed.

(** X14: while the displayed measurement is the one added last, a
    [save_measurement] that returns has written the measurement on display:
    the file holds the dump of its [to_json()]; with none displayed nothing
    is written. *)
Theorem save_measurement_writes_displayed (file_name : string) (w : World) :
  displayed_is_last (model w) →
  outcome (save_measurement file_name) w = inr tt →
  match displayed_measurement (model w) with
  | Some m =>
      ∃ j text, to_json m = inr j ∧ json_dump j = inr text
                ∧ files (exec (save_measurement file_name) w)
                  = <[file_name := text]> (files w)
  | None => files (exec (save_measurement file_name) w) = files w
  end.
Proof.
  unfold displayed_is_last. intros Hinv Hout.
  destruct (displayed_measurement (model w)) as [m |].
  - symmetry in Hinv. apply last_Some in Hinv as [ms Hms].
    exact (save_measurement_written _ _ _ _ Hms Hout).
  - symmetry in Hinv. apply last_None in Hinv.
    unfold exec. rewrite (save_measurement_empty _ _ Hinv). reflexivity.
Qed.

(** *** The buttons and the plot *)

(** Without a file name (the file manager gave none, or an empty one)
    the save and load buttons change nothing; with one they are
    [save_measurement] and [load_measurement] on that path. *)
Lemma file_buttons (file_name : option string) (w : World) :
  (file_name = None ∨ file_name = Some "" →
   on_measurement_save_button_clicked file_name w = (w, inr tt)
   ∧ on_measurement_load_button_clicked file_name w = (w, inr tt))
  ∧ (∀ path, file_name = Some path → path ≠ "" →
     on_measurement_save_button_clicked file_name = save_measurement path
     ∧ on_measurement_load_button_clicked file_name = load_measurement path).
Proof.
  split.
  - intros [-> | ->]; split; reflexivity.
  - intros path -> Hne. apply String.eqb_neq in Hne. cbn. rewrite Hne. auto.
Qed.

(** X15: with two distinct view modes, after [change_view_mode] the plot
    shows the other domain: from FFT_VIEW the time-domain series of the
    displayed measurement under the button text FFT, from any other mode
    its frequency-domain series under the button text iFFT. *)
Theorem change_view_mode_switches_series (w : World) :
  FFT_VIEW ≠ TIME_VIEW →
  let M' := model (exec change_view_mode w) in
  (view_mode (model w) = FFT_VIEW →
   update_displayed_measurement M'
   = {| fft_button_text := "FFT";
        title := "Measurement data - Time domain";
        series := (fun m => (tdx m, tdy m)) <$> displayed_measurement (model w) |})
  ∧ (view_mode (model w) ≠ FFT_VIEW →
     update_displayed_measurement M'
     = {| fft_button_text := "iFFT";
          title := "Measurement data - Frequency domain";
          series := (fun m => (fdx m, fdy m)) <$> displayed_measurement (model w) |}).
Proof.
  intros Hne. unfold exec. rewrite change_view_mode_run. cbn.
  unfold update_displayed_measurement. cbn. split; intros H.
  - rewrite H, String.eqb_refl.
    assert (E : String.eqb TIME_VIEW FFT_VIEW = false)
      by (apply String.eqb_neq; congruence).
    rewrite E. reflexivity.
  - apply String.eqb_neq in H. rewrite H, String.eqb_refl. reflexivity.
Qed.


End Measurement_module.

(** ** The properties at a concrete module

    Measurements and their JSON form are strings here: the empty string does
    not decode, and no measurement is built from "{}". *)

Definition sample_to_json (m : string) : exn + string := inr m.

Definition sample_json_dump (j : string) : exn * string + string := inr j.

(** No file can be opened for writing under the directory missing_dir. *)
Definition sample_open_error (fs : gmap string string) (path : string) : option exn :=
  if String.prefix "missing_dir/" path then Some FileNotFoundError else None.

Definition sample_json_load (s : string) : exn + string :=
  if String.eqb s "" then inl JSONDecodeError else inr s.

Definition sample_from_json (j : string) : exn + string :=
  if String.eqb j "{}" then inl KeyError else inr j.

Definition sample_model : @Model string Z :=
  {| view_mode := "fft";
     measurements := ["first"; "second"];
     displayed_measurement := Some "first";
     frequency_valid := true;
     averages_valid := true;
     measurement_frequency := 100;
     averages := 1 |}.

Definition sample_world : @World string Z :=
  {| model := sample_model;
     files := {[ "good.meas" := "third"; "bad.meas" := ""; "nokey.meas" := "{}" ]};
     emitted := [] |}.

Lemma change_view_mode_involution_witness :
  (view_mode (model sample_world) = "fft" ∨ view_mode (model sample_world) = "time")
  ∧ exec (change_view_mode "fft" "time") (exec (change_view_mode "fft" "time") sample_world)
    = sample_world.
Proof.
  split; [left; reflexivity |].
  apply (proj2 (proj2 (proj2 (change_view_mode_involution "fft" "time" sample_world)))).
  left. reflexivity.
Defined.

Lemma save_measurement_writes_last_witness :
  measurements (model sample_world) = (["first"] ++ ["second"])%list
  ∧ sample_to_json "second" = inr "second"
  ∧ sample_open_error (files sample_world) "out.meas" = None
  ∧ sample_json_dump "second" = inr "second"
  ∧ save_measurement sample_to_json sample_json_dump sample_open_error "out.meas"
      sample_world
    = (with_files (<["out.meas" := "second"]> (files sample_world)) sample_world,
       inr tt).
Proof.
  split; [reflexivity |]. split; [reflexivity |]. split; [reflexivity |].
  split; [reflexivity |].
  exact (proj1 (proj2 (proj1 (proj2 (proj2 (proj2
           (save_measurement_writes_last sample_to_json sample_json_dump
              sample_open_error "out.meas" sample_world)))) ["first"] "second" eq_refl))
         "second" "second" eq_refl eq_refl eq_refl).
Defined.


(** The further properties at the same module: the apodization of a
    measurement appends " apodized" to it, the frequency field converts
    unless it is empty, the averages field converts "12" only. *)

Definition sample_dialog_apodization (d : @Apodization string) (f : Function)
  : exn + string :=
  inr (dialog_measurement d +:+ " apodized").

Definition sample_accept (d : @Apodization string) : dialog_result := Accepted fid.

Definition sample_reject (d : @Apodization string) : dialog_result := Rejected.

Definition sample_float_of_string (s : string) : exn + Z :=
  if String.eqb s "" then inl (OtherError "ValueError") else inr 83.

Definition sample_times_1e6 (f : Z) : Z := f * 1000000.

Definition sample_str_of_frequency (f : Z) : string := pretty f.

Definition sample_int_of_string (s : string) : exn + Z :=
  if String.eqb s "12" then inr 12 else inl (OtherError "ValueError").

Definition sample_idle_view : View :=
  {| measurement_dialog := MeasurementDialog_init;
     start_enabled := false;
     frequency_text := "83.56"; frequency_style := "";
     averages_text := "12"; averages_style := "";
     spectrometer_label := "" |}.

Definition sample_view : View :=
  with_measurement_dialog (show MeasurementDialog_init) sample_idle_view.

Definition sample_last_world : @World string Z :=
  with_model (with_displayed_measurement (Some "second") sample_model) sample_world.

Definition sample_empty_world : @World string Z :=
  with_model
    (with_displayed_measurement None (with_measurements [] sample_model))
    sample_world.

Lemma process_signals_frame_witness :
  ∃ eff,
    process_signals (Measurement := string) (Frequency := Z)
      "measurement_data" "third" sample_view = Some eff
    ∧ files (exec eff sample_world) = files sample_world.
Proof.
  eexists. split; [reflexivity |].
  exact (proj1 (proj2 (process_signals_frame (Measurement := string) (Frequency := Z)
                         "measurement_data" "third" sample_view _ sample_world
                         eq_refl))).
Defined.

Lemma process_signals_unknown_key_witness :
  process_signals (Measurement := string) (Frequency := Z)
    "set_gain" "3" sample_view = Some (ret sample_view).
Proof.
  apply (process_signals_unknown_key (Measurement := string) (Frequency := Z)
           "set_gain" "3" sample_view); discriminate.
Defined.

Lemma process_signals_takes_measurement_once_witness :
  dialog_visible (measurement_dialog sample_view) = true
  ∧ finished (measurement_dialog sample_view) = true
  ∧ ∃ eff,
      process_signals (Measurement := string) (Frequency := Z)
        "measurement_data" "third" sample_view = Some eff
      ∧ measurements (model (exec eff sample_world)) = ["first"; "second"; "third"].
Proof.
  split; [reflexivity |]. split; [reflexivity |].
  destruct (process_signals_takes_measurement_once (Frequency := Z)
              "third" sample_view sample_world eq_refl eq_refl)
    as (eff & Heff & Hrun & _).
  exists eff. split; [exact Heff |]. unfold exec. rewrite Hrun. reflexivity.
Defined.

Lemma process_signals_dialog_hidden_witness :
  dialog_visible (measurement_dialog sample_idle_view) = false
  ∧ process_signals (Measurement := string) (Frequency := Z)
      "measurement_data" "third" sample_idle_view = Some (ret sample_idle_view).
Proof.
  split; [reflexivity |].
  exact (proj1 (process_signals_dialog_hidden (Frequency := Z)
                  "third" "no signal" sample_idle_view eq_refl)).
Defined.

Lemma process_signals_measurement_error_witness :
  ∃ eff,
    process_signals (Measurement := string) (Frequency := Z)
      "measurement_error" "no signal" sample_view = Some eff
    ∧ emitted (exec eff sample_world)
      = [("notification", Texts ["Error"; "no signal"])].
Proof.
  destruct (process_signals_measurement_error (Measurement := string) (Frequency := Z)
              "no signal" sample_view sample_world eq_refl eq_refl)
    as (eff & Heff & Hrun).
  exists eff. split; [exact Heff |]. unfold exec. rewrite Hrun. reflexivity.
Defined.

Lemma settings_toggle_start_button_witness :
  outcome (set_averages sample_int_of_string true "12" sample_idle_view) sample_world
  = inr (with_start_enabled true sample_idle_view)
  ∧ averages_valid
      (model (exec (set_averages sample_int_of_string true "12" sample_idle_view)
                sample_world)) = true.
Proof.
  assert (H : outcome (set_averages sample_int_of_string true "12" sample_idle_view)
                sample_world
              = inr (with_start_enabled true sample_idle_view)) by reflexivity.
  split; [exact H |].
  exact (proj1 (proj2 (settings_toggle_start_button sample_float_of_string
                         sample_times_1e6 sample_str_of_frequency sample_int_of_string
                         true "12" sample_idle_view sample_world) _ H)).
Defined.

Lemma settings_conversion_raises_witness :
  sample_int_of_string "twelve" = inl (OtherError "ValueError")
  ∧ set_averages sample_int_of_string true "twelve" sample_idle_view sample_world
    = (with_model (with_averages_valid true sample_model) sample_world,
       inl (OtherError "ValueError")).
Proof.
  split; [reflexivity |].
  exact (proj2 (settings_conversion_raises sample_float_of_string sample_times_1e6
                  sample_str_of_frequency sample_int_of_string
                  "twelve" sample_idle_view sample_world) _ eq_refl).
Defined.

Lemma start_measurement_then_data_witness :
  finished (measurement_dialog sample_idle_view) = true
  ∧ ∃ v1 eff,
      outcome (start_measurement sample_str_of_frequency sample_idle_view) sample_world
      = inr v1
      ∧ process_signals (Measurement := string) (Frequency := Z)
          "measurement_data" "third" v1 = Some eff.
Proof.
  split; [reflexivity |].
  destruct (start_measurement_then_data sample_str_of_frequency
              "third" sample_idle_view sample_world eq_refl)
    as (v1 & eff & Hout & _ & _ & _ & _ & Heff & _).
  exists v1, eff. split; [exact Hout | exact Heff].
Defined.

Lemma process_signals_returns_witness :
  finished (measurement_dialog sample_view) = true
  ∧ ∃ eff,
      process_signals (Measurement := string) (Frequency := Z)
        "active_spectrometer_changed" "LimeNQR" sample_view = Some eff.
Proof.
  split; [reflexivity |].
  destruct (proj1 (proj2 (proj2
              (process_signals_returns (Measurement := string) (Frequency := Z)
                 "active_spectrometer_changed" "LimeNQR" sample_view))) eq_refl)
    as (eff & Heff & _).
  exists eff. exact Heff.
Defined.

Lemma displayed_is_last_preserved_witness :
  displayed_is_last (model sample_last_world)
  ∧ displayed_is_last
      (model (exec (load_measurement sample_from_json sample_json_load "good.meas")
                sample_last_world)).
Proof.
  assert (H : displayed_is_last (model sample_last_world)) by reflexivity.
  split; [exact H |].
  exact (proj1 (displayed_is_last_preserved sample_to_json sample_from_json
                  sample_json_dump sample_open_error sample_json_load
                  fid fid 0 1 "fft" "time"
                  sample_dialog_apodization sample_float_of_string sample_times_1e6
                  sample_str_of_frequency sample_int_of_string
                  sample_last_world H) "good.meas").
Defined.

Lemma save_measurement_writes_displayed_witness :
  displayed_is_last (model sample_last_world)
  ∧ outcome (save_measurement sample_to_json sample_json_dump sample_open_error
               "out.meas") sample_last_world = inr tt
  ∧ ∃ j text,
      sample_to_json "second" = inr j ∧ sample_json_dump j = inr text
      ∧ files (exec (save_measurement sample_to_json sample_json_dump
                       sample_open_error "out.meas") sample_last_world)
        = <["out.meas" := text]> (files sample_last_world).
Proof.
  assert (H : displayed_is_last (model sample_last_world)) by reflexivity.
  assert (Hout : outcome (save_measurement sample_to_json sample_json_dump
                            sample_open_error "out.meas") sample_last_world
                 = inr tt) by reflexivity.
  split; [exact H |]. split; [exact Hout |].
  exact (save_measurement_writes_displayed sample_to_json sample_json_dump
           sample_open_error "out.meas" sample_last_world H Hout).
Defined.

Lemma change_view_mode_switches_series_witness :
  "fft" ≠ "time"
  ∧ series (update_displayed_measurement
              (fun m : string => m) (fun m => m) (fun m => m) (fun m => m) "fft"
              (model (exec (change_view_mode "fft" "time") sample_world)))
    = Some ("first", "first").
Proof.
  assert (Hne : "fft" ≠ "time") by discriminate.
  split; [exact Hne |].
  rewrite (proj1 (change_view_mode_switches_series
                    (fun m : string => m) (fun m => m) (fun m => m) (fun m => m)
                    "fft" "time" sample_world Hne) eq_refl).
  reflexivity.
Defined.

Lemma save_then_load_witness :
  measurements (model sample_last_world) = (["first"] ++ ["second"])%list
  ∧ sample_to_json "second" = inr "second"
  ∧ sample_open_error (files sample_last_world) "out.meas" = None
  ∧ sample_json_dump "second" = inr "second"
  ∧ sample_json_load "second" = inr "second"
  ∧ sample_from_json "second" = inr "second"
  ∧ displayed_measurement
      (model (exec (load_measurement sample_from_json sample_json_load "out.meas")
                (exec (save_measurement sample_to_json sample_json_dump
                         sample_open_error "out.meas") sample_last_world)))
    = Some "second".
Proof.
  split; [reflexivity |]. split; [reflexivity |]. split; [reflexivity |].
  split; [reflexivity |]. split; [reflexivity |]. split; [reflexivity |].
  unfold exec at 1.
  rewrite (proj2 (save_then_load sample_to_json sample_from_json sample_json_dump
                    sample_open_error sample_json_load "out.meas" sample_last_world
                    ["first"] "second" "second" "second" "second"
                    eq_refl eq_refl eq_refl eq_refl eq_refl eq_refl)).
  reflexivity.
Defined.

Lemma show_apodization_dialog_rejected_witness :
  displayed_measurement (model sample_world) = Some "first"
  ∧ show_apodization_dialog fid fid 0 1 sample_dialog_apodization sample_reject
      sample_world
    = (sample_world, inl UnboundLocalError).
Proof.
  split; [reflexivity |].
  exact (show_apodization_dialog_rejected fid fid 0 1 sample_dialog_apodization
           sample_reject sample_world "first" _ eq_refl eq_refl eq_refl).
Defined.

Lemma show_apodization_dialog_accepted_witness :
  displayed_measurement (model sample_world) = Some "first"
  ∧ measurements
      (model (exec (show_apodization_dialog fid fid 0 1 sample_dialog_apodization
                      sample_accept) sample_world))
    = ["first"; "second"; "first apodized"].
Proof.
  split; [reflexivity |].
  unfold exec.
  rewrite (show_apodization_dialog_accepted fid fid 0 1 sample_dialog_apodization
             sample_accept sample_world "first" _ fid eq_refl eq_refl eq_refl).
  reflexivity.
Defined.

Lemma show_apodization_dialog_nothing_displayed_witness :
  displayed_measurement (model sample_empty_world) = None
  ∧ show_apodization_dialog fid fid 0 1 sample_dialog_apodization sample_accept
      sample_empty_world
    = (notified "No measurement to apodize." sample_empty_world, inr tt).
Proof.
  split; [reflexivity |].
  exact (show_apodization_dialog_nothing_displayed fid fid 0 1
           sample_dialog_apodization sample_accept sample_empty_world eq_refl).
Defined.

Definition sample_strict_from_json (j : string) : exn + string :=
  inl (OtherError "TypeError").

Lemma load_measurement_frame_witness :
  outcome (load_measurement sample_strict_from_json sample_json_load "good.meas")
    sample_world
  = inl (OtherError "TypeError")
  ∧ exec (load_measurement sample_strict_from_json sample_json_load "good.meas")
      sample_world
    = sample_world.
Proof.
  assert (H : outcome (load_measurement sample_strict_from_json sample_json_load
                         "good.meas") sample_world
              = inl (OtherError "TypeError")) by reflexivity.
  split; [exact H |].
  exact (proj2 (proj2 (proj2 (proj2
           (load_measurement_frame sample_strict_from_json sample_json_load
              "good.meas" sample_world)))) _ H).
Defined.

(** On a path that cannot be opened for writing, the exception leaves
    [save_measurement] and no file is touched. *)
Example save_measurement_unwritable :
  save_measurement sample_to_json sample_json_dump sample_open_error
    "missing_dir/out.meas" sample_world
  = (sample_world, inl FileNotFoundError).
Proof. reflexivity. Qed.
